(** * WebSocket hub of v2ray-core: transport/internet/websocket/hub.go

    A shallow embedding of the listener pipeline and of the HTTP upgrade
    dispatcher, with the properties of its request handling, of the
    camouflage responses, of the wrapping order in [ListenWS] and of
    [Listener.Close].

    Go values that live behind pointers and are mutated in place (the
    address object a connection reports, the [*Listener]) are kept in an
    explicit store and named by locations; everything effectful runs in a
    state monad whose result can be a Go panic. *)

From Stdlib Require Import ZArith String Ascii List.
From stdpp Require Import gmap strings list.

Local Open Scope string_scope.
Local Open Scope list_scope.
Local Open Scope Z_scope.

(** ** Basic data *)

(** Pointers into the stores of the state. *)
Abbreviation loc := nat.

(** [time.Duration] is an int64 count of nanoseconds. *)
Definition Duration := Z.

Definition wrap64 (z : Z) : Z :=
  (z + 2 ^ 63) mod 2 ^ 64 - 2 ^ 63.

Definition Second : Duration := 1000000000.

Definition Duration_mul (a b : Duration) : Duration := wrap64 (a * b).

(** [net.IP] is a byte slice. *)
Definition net_IP := list Byte.byte.

Definition ip4 (a b c d : N) : net_IP :=
  map (fun n => default Byte.x00 (Byte.of_N n)) [a; b; c; d].

Module TCPAddr.
Record t := mk { IP : net_IP; Port : Z; Zone : string }.
End TCPAddr.

Module UDPAddr.
Record t := mk { IP : net_IP; Port : Z; Zone : string }.
End UDPAddr.

Module UnixAddr.
Record t := mk { Name : string; Net : string }.
End UnixAddr.

(** A value of the interface [net.Addr], by its dynamic type. *)
Inductive Addr :=
| AddrTCP (a : TCPAddr.t)
| AddrUDP (a : UDPAddr.t)
| AddrUnix (a : UnixAddr.t).

Inductive AddressFamily :=
| AddressFamilyIPv4
| AddressFamilyIPv6
| AddressFamilyDomain.

Definition IsIP (f : AddressFamily) : bool :=
  match f with
  | AddressFamilyIPv4 | AddressFamilyIPv6 => true
  | AddressFamilyDomain => false
  end.

(** Modelled from the spec: the interface [Address] of common/net is not
    among the sources.  A client address parsed from the forwarding header
    is either a syntactically valid IP or something else; it is kept as
    what its three methods return. *)
Module Address.
Record t := mk { Family : AddressFamily; IP : net_IP; Domain : string }.
End Address.

(** ** Errors and the log *)

Inductive Severity := SeverityInfo | SeverityWarning.

Inductive Value :=
| VStr (s : string)
| VAddress (a : Address.t)
| VPort (p : Z).

(** A Go [error]: one raised by a collaborator, or one built by
    [newError(values...)], possibly chained to its cause by [Base] and
    graded by [AtWarning]. *)
Inductive error :=
| Foreign (reason : string)
| Plain (values : list Value) (severity : Severity)
| Caused (values : list Value) (severity : Severity) (cause : error).

Definition newError (values : list Value) : error :=
  Plain values SeverityInfo.

Definition Base (e cause : error) : error :=
  match e with
  | Plain v s | Caused v s _ => Caused v s cause
  | Foreign r => Foreign r
  end.

Definition AtWarning (e : error) : error :=
  match e with
  | Plain v _ => Plain v SeverityWarning
  | Caused v _ c => Caused v SeverityWarning c
  | Foreign r => Foreign r
  end.

(** ** HTTP: requests and the response sink *)

Definition StatusForbidden : Z := 403.
Definition StatusNotFound : Z := 404.
Definition StatusOK : Z := 200.

(** [http.Header] is a map from names to lists of values. *)
Record Request := mkRequest {
  URL_Path : string;
  Header : gmap string (list string)
}.

Definition Header_Get (h : gmap string (list string)) (key : string) : string :=
  match h !! key with
  | Some (v :: _) => v
  | _ => ""
  end.

(** The [http.ResponseWriter] of the request being served.  The header map
    can be edited until the status line is sent; [WriteHeader] freezes it;
    [Write] appends to the body, or fails with the sink's fault. *)
Record ResponseWriter := mkResponseWriter {
  rw_header : gmap string string;
  rw_status : option Z;
  rw_sent : gmap string string;
  rw_body : string;
  rw_fault : option error
}.

Definition pristine (w : ResponseWriter) : Prop :=
  rw_status w = None /\ rw_body w = "".

Definition rw_Set (key value : string) (w : ResponseWriter) : ResponseWriter :=
  {| rw_header := <[key := value]> (rw_header w);
     rw_status := rw_status w;
     rw_sent := rw_sent w;
     rw_body := rw_body w;
     rw_fault := rw_fault w |}.

Definition rw_WriteHeader (code : Z) (w : ResponseWriter) : ResponseWriter :=
  match rw_status w with
  | Some _ => w
  | None =>
      {| rw_header := rw_header w;
         rw_status := Some code;
         rw_sent := rw_header w;
         rw_body := rw_body w;
         rw_fault := rw_fault w |}
  end.

Definition rw_Write (p : string) (w : ResponseWriter) : ResponseWriter * option error :=
  let w := rw_WriteHeader StatusOK w in
  match rw_fault w with
  | Some e => (w, Some e)
  | None =>
      ({| rw_header := rw_header w;
          rw_status := rw_status w;
          rw_sent := rw_sent w;
          rw_body := rw_body w +:+ p;
          rw_fault := None |}, None)
  end.

(** ** Listeners *)

(** The policy a PROXY-protocol listener applies to an upstream. *)
Inductive Policy := USE | IGNORE | REJECT | REQUIRE.

(** The listener [internet.ListenSystem] hands out: a collaborator.  What
    matters of it here is the address it is bound to and what its [Close]
    answers; it counts the [Close] calls it has received, and [sl_onClose k]
    is the answer to a call that comes after [k] earlier ones. *)
Record StreamListener := mkStreamListener {
  sl_addr : Addr;
  sl_closes : nat;
  sl_onClose : nat -> option error
}.

Record tls_Config := mk_tls_Config { ServerName : string }.

(** The composed [net.Listener]: the system listener, possibly inside
    [proxyproto.Listener], possibly inside the listener of [tls.NewListener].
    Both wrappers pass [Close] and [Addr] on to what they wrap. *)
Inductive NetListener :=
| SystemListener (s : StreamListener)
| ProxyListener (inner : NetListener) (policy : Addr -> Policy * option error)
| TLSListener (inner : NetListener) (cfg : tls_Config).

Fixpoint NetListener_Close (l : NetListener) : NetListener * option error :=
  match l with
  | SystemListener s =>
      (SystemListener {| sl_addr := sl_addr s;
                         sl_closes := S (sl_closes s);
                         sl_onClose := sl_onClose s |},
       sl_onClose s (sl_closes s))
  | ProxyListener inner policy =>
      let (inner', e) := NetListener_Close inner in (ProxyListener inner' policy, e)
  | TLSListener inner cfg =>
      let (inner', e) := NetListener_Close inner in (TLSListener inner' cfg, e)
  end.

Fixpoint NetListener_Addr (l : NetListener) : Addr :=
  match l with
  | SystemListener s => sl_addr s
  | ProxyListener inner _ | TLSListener inner _ => NetListener_Addr inner
  end.

(** The system listener at the bottom of a composed listener. *)
Fixpoint underlying (l : NetListener) : StreamListener :=
  match l with
  | SystemListener s => s
  | ProxyListener inner _ | TLSListener inner _ => underlying inner
  end.

Fixpoint has_tls (l : NetListener) : bool :=
  match l with
  | SystemListener _ => false
  | ProxyListener inner _ => has_tls inner
  | TLSListener _ _ => true
  end.

Fixpoint has_proxy (l : NetListener) : bool :=
  match l with
  | SystemListener _ => false
  | ProxyListener _ _ => true
  | TLSListener inner _ => has_proxy inner
  end.

(** No transport-security layer lies inside a proxy-preamble layer. *)
Fixpoint tls_outside_proxy (l : NetListener) : bool :=
  match l with
  | SystemListener _ => true
  | ProxyListener inner _ => negb (has_tls inner) && tls_outside_proxy inner
  | TLSListener inner _ => tls_outside_proxy inner
  end.

(** ** Configuration *)

(** Modelled from the spec: the message [Config] of this package is not
    among the sources; the spec gives it the upgrade path and the flag that
    asks for the proxy preamble. *)
Record Config := mkConfig {
  Path : string;
  AcceptProxyProtocol : bool
}.

(** Modelled from the spec: [Config.GetNormalizedPath] is not among the
    sources; the path is normalized to begin with a slash, so that it is
    never empty. *)
Definition GetNormalizedPath (c : Config) : string :=
  match Path c with
  | String "/" _ => Path c
  | p => String "/" p
  end.

Record v2tls_Config := mk_v2tls_Config { Certificate : string }.

Record SocketConfig := mkSocketConfig { Mark : Z }.

(** What a settings field of interface type can hold. *)
Inductive Settings :=
| WebSocketSettings (c : Config)
| SecuritySettingsTLS (c : v2tls_Config)
| OtherSettings (name : string).

Record MemoryStreamConfig := mkMemoryStreamConfig {
  ProtocolSettings : Settings;
  SecuritySettings : option Settings;
  SocketSettings : option SocketConfig
}.

(** ** The pipeline handle and its HTTP server *)

(** [internet.ConnHandler]: the consumer callback, known by its identity. *)
Abbreviation ConnHandler := nat.

Record requestHandler := mkRequestHandler {
  path : string;
  ln : loc
}.

Record http_Server := mkServer {
  Handler : option requestHandler;
  ReadHeaderTimeout : Duration;
  MaxHeaderBytes : Z
}.

(** The struct [Listener]; its embedded mutex is never locked by this file
    and is left out. *)
Record Listener := mkListener {
  server : http_Server;
  listener : NetListener;
  config : Config;
  addConn : ConnHandler
}.

(** ** Connections *)

(** An upgraded [*websocket.Conn]: it reports, on every call of
    [RemoteAddr], the one address object of the stream beneath it. *)
Record WsConn := mkWsConn {
  ws_id : nat;
  ws_raddr : loc
}.

Definition RemoteAddr (c : WsConn) : loc := ws_raddr c.

(** Modelled from the spec: [newConnection] and the struct it fills are
    not among the sources; the framed connection wraps the upgraded one
    together with its resolved remote address. *)
Record connection := mkConnection {
  conn : WsConn;
  remoteAddr : loc
}.

Definition newConnection (c : WsConn) (remote : loc) : connection :=
  {| conn := c; remoteAddr := remote |}.

(** ** The state and the monad *)

(** One attempt of the protocol upgrade, with the parameters it ran under. *)
Record UpgradeAttempt := mkUpgradeAttempt {
  ua_request : Request;
  ua_ReadBufferSize : Z;
  ua_WriteBufferSize : Z;
  ua_HandshakeTimeout : Duration
}.

Record State := mkState {
  resp : ResponseWriter;                       (* sink of the request being served *)
  addrs : gmap nat Addr;                       (* the address objects *)
  listeners : gmap nat Listener;               (* the [*Listener] objects *)
  logs : list error;                           (* what [WriteToLog] received *)
  delivered : list (ConnHandler * connection); (* calls of consumer callbacks *)
  upgrades : list UpgradeAttempt;              (* calls of [Upgrade] *)
  serving : list loc                           (* goroutines running [Serve] *)
}.

Definition with_resp (f : ResponseWriter -> ResponseWriter) (s : State) : State :=
  mkState (f (resp s)) (addrs s) (listeners s) (logs s) (delivered s) (upgrades s) (serving s).

Definition with_addrs (f : gmap nat Addr -> gmap nat Addr) (s : State) : State :=
  mkState (resp s) (f (addrs s)) (listeners s) (logs s) (delivered s) (upgrades s) (serving s).

Definition with_listeners (f : gmap nat Listener -> gmap nat Listener) (s : State) : State :=
  mkState (resp s) (addrs s) (f (listeners s)) (logs s) (delivered s) (upgrades s) (serving s).

Definition with_logs (f : list error -> list error) (s : State) : State :=
  mkState (resp s) (addrs s) (listeners s) (f (logs s)) (delivered s) (upgrades s) (serving s).

Definition with_delivered
    (f : list (ConnHandler * connection) -> list (ConnHandler * connection))
    (s : State) : State :=
  mkState (resp s) (addrs s) (listeners s) (logs s) (f (delivered s)) (upgrades s) (serving s).

Definition with_upgrades (f : list UpgradeAttempt -> list UpgradeAttempt) (s : State) : State :=
  mkState (resp s) (addrs s) (listeners s) (logs s) (delivered s) (f (upgrades s)) (serving s).

Definition with_serving (f : list loc -> list loc) (s : State) : State :=
  mkState (resp s) (addrs s) (listeners s) (logs s) (delivered s) (upgrades s) (f (serving s)).

(** A computation returns with a value, or panics. *)
Inductive Res (A : Type) :=
| Ok (a : A) (s : State)
| Panic (msg : string) (s : State).

Arguments Ok {A} a s.
Arguments Panic {A} msg s.

Definition M (A : Type) : Type := State -> Res A.

#[global] Instance M_ret : MRet M := fun A a s => Ok a s.

#[global] Instance M_bind : MBind M := fun A B f m s =>
  match m s with
  | Ok a s' => f a s'
  | Panic msg s' => Panic msg s'
  end.

Definition panic {A} (msg : string) : M A := fun s => Panic msg s.

Definition final {A} (r : Res A) : State :=
  match r with
  | Ok _ s | Panic _ s => s
  end.

Definition panicked {A} (r : Res A) : bool :=
  match r with
  | Ok _ _ => false
  | Panic _ _ => true
  end.

(** [err.WriteToLog()] *)
Definition WriteToLog (e : error) : M unit :=
  fun s => Ok tt (with_logs (fun l => l ++ [e]) s).

(** [writer.Header().Set(key, value)] *)
Definition Header_Set (key value : string) : M unit :=
  fun s => Ok tt (with_resp (rw_Set key value) s).

(** [writer.WriteHeader(code)] *)
Definition WriteHeader (code : Z) : M unit :=
  fun s => Ok tt (with_resp (rw_WriteHeader code) s).

(** [writer.Write(p)], returning its error. *)
Definition Write (p : string) : M (option error) :=
  fun s => let (w, e) := rw_Write p (resp s) in Ok e (with_resp (fun _ => w) s).

(** ** The camouflage responder *)

Definition forbiddenContent : string :=
"<html>
<head><title>403 Forbidden</title></head>
<body>
<center><h1>403 Forbidden</h1></center>
<hr><center>nginx</center>
</body>
</html>".

Definition notFoundContent : string :=
"<html>
<head><title>404 Not Found</title></head>
<body>
<center><h1>404 Not Found</h1></center>
<hr><center>nginx</center>
</body>
</html>".

Definition forbiddenHandler : M unit :=
  Header_Set "Server" "nginx";;
  Header_Set "Content-Type" "text/html";;
  WriteHeader StatusForbidden;;
  err ← Write forbiddenContent;
  match err with
  | Some err => WriteToLog (Base (newError [VStr "failed to write forbidden response:"]) err)
  | None => mret tt
  end.

Definition notFoundHandler : M unit :=
  Header_Set "Server" "nginx";;
  Header_Set "Content-Type" "text/html";;
  WriteHeader StatusNotFound;;
  err ← Write notFoundContent;
  match err with
  | Some err => WriteToLog (Base (newError [VStr "failed to write not found response:"]) err)
  | None => mret tt
  end.

(** ** Collaborators *)

(** What the handshake of the framing library concludes about a request,
    the origin check apart: a connection, or a refusal with the HTTP status
    and the reason it would report. *)
Inductive Handshake :=
| Accepted (c : WsConn)
| Refused (status : Z) (reason : string).

(** The code outside this file that the pipeline calls: the address parser
    of common/net, the handshake of the framing library, the system
    listener, and the lookup of the transport-security configuration. *)
Class Collaborators := {
  ParseAddress : string -> Address.t;
  handshake : Request -> Handshake;
  ListenSystem : TCPAddr.t -> option SocketConfig -> StreamListener + error;
  ConfigFromStreamSettings : MemoryStreamConfig -> option v2tls_Config;
  GetTLSConfig : v2tls_Config -> option tls_Config
}.

(** ** The upgrader *)

(** [websocket.Upgrader], with the fields this package sets.  The error
    callback receives the sink through the state. *)
Record Upgrader := mkUpgrader {
  ReadBufferSize : Z;
  WriteBufferSize : Z;
  HandshakeTimeout : Duration;
  CheckOrigin : Request -> bool;
  Error : Request -> Z -> error -> M unit
}.

Definition upgrader : Upgrader :=
  {| ReadBufferSize := 4 * 1024;
     WriteBufferSize := 4 * 1024;
     HandshakeTimeout := Duration_mul Second 4;
     CheckOrigin := fun r => true;
     Error := fun r status reason => forbiddenHandler |}.

(** The library's [Upgrader.returnError]: the refusal goes to the error
    callback, and comes back as the error of [Upgrade]. *)
Definition returnError (u : Upgrader) (r : Request) (status : Z) (reason : string)
  : M (option WsConn * option error) :=
  let err := Foreign reason in
  Error u r status err;;
  mret (None, Some err).

(** The library's [Upgrader.Upgrade], by its contract: a request the
    handshake or the origin check refuses is answered through
    [returnError]; otherwise the upgraded connection is returned and the
    sink is left alone (the stream has been taken over). *)
Definition Upgrade `{Collaborators} (u : Upgrader) (r : Request)
  : M (option WsConn * option error) :=
  (fun s => Ok tt (with_upgrades (fun l => l ++
     [mkUpgradeAttempt r (ReadBufferSize u) (WriteBufferSize u) (HandshakeTimeout u)]) s));;
  match handshake r with
  | Refused status reason => returnError u r status reason
  | Accepted c =>
      if CheckOrigin u r then mret (Some c, None)
      else returnError u r StatusForbidden
             "websocket: request origin not allowed by Upgrader.CheckOrigin"
  end.

(** ** The origin resolver *)

(** [strings.Split(s, sep)] for a one-byte separator. *)
Fixpoint Split (s : string) (sep : ascii) : list string :=
  match s with
  | EmptyString => [EmptyString]
  | String c rest =>
      if Ascii.eqb c sep then EmptyString :: Split rest sep
      else match Split rest sep with
           | piece :: pieces => String c piece :: pieces
           | [] => [String c EmptyString]
           end
  end.

(** Modelled from the spec: [ParseXForwardedFor] of common/protocol/http is
    not among the sources.  It yields the client addresses of the
    comma-separated forwarding header, leftmost first, and none when the
    header is absent or empty. *)
Definition ParseXForwardedFor `{Collaborators} (header : gmap string (list string))
  : list Address.t :=
  let xff := Header_Get header "X-Forwarded-For" in
  if bool_decide (xff = "") then []
  else map ParseAddress (Split xff ",").

(** The assignment to the field [IP] of [remoteAddr], asserted to be a
    pointer to [net.TCPAddr]: the type assertion panics unless the object
    is a TCP address; the object keeps its other fields. *)
Definition assign_TCPAddr_IP (remote : loc) (ip : net_IP) : M unit :=
  fun s =>
    match addrs s !! remote with
    | Some (AddrTCP a) =>
        Ok tt (with_addrs
                 <[remote := AddrTCP (TCPAddr.mk ip (TCPAddr.Port a) (TCPAddr.Zone a))]> s)
    | Some _ => Panic "interface conversion: net.Addr is not *net.TCPAddr" s
    | None => Panic "interface conversion: interface is nil, not *net.TCPAddr" s
    end.

(** [ln.addConn(c)], through the pointer [ln]. *)
Definition call_addConn (ln : loc) (c : connection) : M unit :=
  fun s =>
    match listeners s !! ln with
    | Some l => Ok tt (with_delivered (fun d => d ++ [(addConn l, c)]) s)
    | None => Panic "invalid memory address or nil pointer dereference" s
    end.

(** ** The upgrade dispatcher *)

Definition ServeHTTP `{Collaborators} (h : requestHandler) (request : Request) : M unit :=
  if bool_decide (URL_Path request ≠ path h) then notFoundHandler
  else
    r ← Upgrade upgrader request;
    match r with
    | (_, Some err) =>
        WriteToLog (Base (newError [VStr "failed to convert to WebSocket connection"]) err)
    | (None, None) => panic "invalid memory address or nil pointer dereference"
    | (Some conn, None) =>
        let forwardedAddrs := ParseXForwardedFor (Header request) in
        let remoteAddr := RemoteAddr conn in
        match forwardedAddrs with
        | first :: _ =>
            if IsIP (Address.Family first)
            then assign_TCPAddr_IP remoteAddr (Address.IP first)
            else mret tt
        | [] => mret tt
        end;;
        call_addConn (ln h) (newConnection conn remoteAddr)
    end.

(** ** The listener pipeline *)

(** The policy function handed to the PROXY-protocol listener. *)
Definition policyFunc (upstream : Addr) : Policy * option error := (REQUIRE, None).

(** The type assertion of the protocol settings to the configuration of
    this package. *)
Definition assert_Config (settings : Settings) : M Config :=
  match settings with
  | WebSocketSettings c => mret c
  | _ => panic "interface conversion: interface {} is not *websocket.Config"
  end.

(** [&Listener{...}]: a new object in the store. *)
Definition new_Listener (l : Listener) : M loc :=
  fun s =>
    let p := fresh (dom (listeners s)) in
    Ok p (with_listeners <[p := l]> s).

(** [l.server = srv], through the pointer [l]. *)
Definition set_server (l : loc) (srv : http_Server) : M unit :=
  fun s =>
    match listeners s !! l with
    | Some o =>
        Ok tt (with_listeners
                 <[l := mkListener srv (listener o) (config o) (addConn o)]> s)
    | None => Panic "invalid memory address or nil pointer dereference" s
    end.

(** [go func() { l.server.Serve(l.listener) ... }()]: the accept loop runs
    beside the caller; only its start is recorded. *)
Definition go_Serve (l : loc) : M unit :=
  fun s => Ok tt (with_serving (fun g => g ++ [l]) s).

Definition ListenWS `{Collaborators} (address : Address.t) (port : Z)
    (streamSettings : MemoryStreamConfig) (addConn : ConnHandler)
  : M (option loc * option error) :=
  match ListenSystem (TCPAddr.mk (Address.IP address) port "")
                     (SocketSettings streamSettings) with
  | inr err =>
      mret (None,
            Some (Base (newError [VStr "failed to listen TCP(for WS) on";
                                  VAddress address; VStr ":"; VPort port]) err))
  | inl sys =>
      let listener := SystemListener sys in
      WriteToLog (newError [VStr "listening TCP(for WS) on ";
                            VAddress address; VStr ":"; VPort port]);;
      wsSettings ← assert_Config (ProtocolSettings streamSettings);
      listener ← (if AcceptProxyProtocol wsSettings
                  then
                    WriteToLog (AtWarning (newError [VStr "accepting PROXY protocol"]));;
                    mret (ProxyListener listener policyFunc)
                  else mret listener);
      let listener :=
        match ConfigFromStreamSettings streamSettings with
        | Some config =>
            match GetTLSConfig config with
            | Some tlsConfig => TLSListener listener tlsConfig
            | None => listener
            end
        | None => listener
        end in
      l ← new_Listener {| server := mkServer None 0 0;
                          listener := listener;
                          config := wsSettings;
                          addConn := addConn |};
      set_server l {| Handler := Some {| path := GetNormalizedPath wsSettings; ln := l |};
                      ReadHeaderTimeout := Duration_mul Second 4;
                      MaxHeaderBytes := 2048 |};;
      go_Serve l;;
      mret (Some l, None)
  end.

(** [Listener.Addr] *)
Definition Listener_Addr (ln : loc) : M Addr :=
  fun s =>
    match listeners s !! ln with
    | Some l => Ok (NetListener_Addr (listener l)) s
    | None => Panic "invalid memory address or nil pointer dereference" s
    end.

(** [Listener.Close]: the composed listener's [Close], and its answer. *)
Definition Listener_Close (ln : loc) : M (option error) :=
  fun s =>
    match listeners s !! ln with
    | Some l =>
        let (listener', err) := NetListener_Close (listener l) in
        Ok err (with_listeners
                  <[ln := mkListener (server l) listener' (config l) (addConn l)]> s)
    | None => Panic "invalid memory address or nil pointer dereference" s
    end.

(** Calling [Close] on the same handle [n] times in a row, keeping every
    answer. *)
Fixpoint Close_times (n : nat) (ln : loc) : M (list (option error)) :=
  match n with
  | O => mret []
  | S n => e ← Listener_Close ln; es ← Close_times n ln; mret (e :: es)
  end.

(** ** Observations on states *)

(** The number of [Close] calls that have reached the system listener
    beneath the pipeline at [ln]. *)
Definition closes_seen (ln : loc) (s : State) : nat :=
  match listeners s !! ln with
  | Some l => sl_closes (underlying (listener l))
  | None => 0
  end.

(** Two states that differ at most in the sink and in the log. *)
Definition same_world (s s' : State) : Prop :=
  addrs s' = addrs s /\ listeners s' = listeners s /\ delivered s' = delivered s /\
  upgrades s' = upgrades s /\ serving s' = serving s.

(** The record of an upgrade attempt made with the parameters of
    [upgrader]. *)
Definition attempt (r : Request) : UpgradeAttempt :=
  {| ua_request := r;
     ua_ReadBufferSize := 4096;
     ua_WriteBufferSize := 4096;
     ua_HandshakeTimeout := 4000000000 |}.

(** Two address objects of the same dynamic type that differ at most in
    the IP of a TCP address. *)
Definition same_endpoint (a a' : Addr) : Prop :=
  match a, a' with
  | AddrTCP t, AddrTCP t' =>
      TCPAddr.Port t' = TCPAddr.Port t /\ TCPAddr.Zone t' = TCPAddr.Zone t
  | AddrUDP u, AddrUDP u' => u' = u
  | AddrUnix u, AddrUnix u' => u' = u
  | _, _ => False
  end.

(** ** A concrete setting

    Collaborators and states on which the definitions above are run. *)

Module Lab.

Definition client : Address.t := Address.mk AddressFamilyIPv4 (ip4 203 0 113 7) "".

Definition parse (s : string) : Address.t :=
  if bool_decide (s = "203.0.113.7") then client
  else Address.mk AddressFamilyDomain [] s.

Definition peer : WsConn := {| ws_id := 1; ws_raddr := 0%nat |}.

Definition shake (r : Request) : Handshake :=
  if bool_decide (Header_Get (Header r) "Upgrade" = "websocket")
  then Accepted peer
  else Refused 400 "websocket: the client is not using the websocket protocol".

(** A listener that, like a TCP listener, refuses to be closed twice. *)
Definition tcp_listener (a : TCPAddr.t) : StreamListener :=
  {| sl_addr := AddrTCP a;
     sl_closes := 0;
     sl_onClose := fun k =>
       match k with
       | O => None
       | S _ => Some (Foreign "use of closed network connection")
       end |}.

Definition listen (a : TCPAddr.t) (o : option SocketConfig) : StreamListener + error :=
  if bool_decide (0 < TCPAddr.Port a) then inl (tcp_listener a)
  else inr (Foreign "bind: permission denied").

Definition security (c : MemoryStreamConfig) : option v2tls_Config :=
  match SecuritySettings c with
  | Some (SecuritySettingsTLS t) => Some t
  | _ => None
  end.

#[export] Instance collaborators : Collaborators :=
  {| ParseAddress := parse;
     handshake := shake;
     ListenSystem := listen;
     ConfigFromStreamSettings := security;
     GetTLSConfig := fun c => Some {| ServerName := Certificate c |} |}.

Definition sink : ResponseWriter :=
  {| rw_header := ∅; rw_status := None; rw_sent := ∅; rw_body := ""; rw_fault := None |}.

Definition consumer : ConnHandler := 42%nat.

Definition hub : Listener :=
  {| server := mkServer None 0 0;
     listener := SystemListener (tcp_listener (TCPAddr.mk (ip4 0 0 0 0) 443 ""));
     config := mkConfig "/ws" false;
     addConn := consumer |}.

(** A state with one pipeline at location 5 and one address object at
    location 0, the one [peer] reports. *)
Definition world (remote : Addr) : State :=
  {| resp := sink;
     addrs := {[ 0%nat := remote ]};
     listeners := {[ 5%nat := hub ]};
     logs := [];
     delivered := [];
     upgrades := [];
     serving := [] |}.

Definition tcp_peer : Addr := AddrTCP (TCPAddr.mk (ip4 10 0 0 2) 5555 "").
Definition udp_peer : Addr := AddrUDP (UDPAddr.mk (ip4 10 0 0 2) 5555 "").

Definition handler : requestHandler := {| path := "/ws"; ln := 5%nat |}.

Definition request (p : string) (xff : option string) : Request :=
  {| URL_Path := p;
     Header := match xff with
               | Some v => <["X-Forwarded-For" := [v]]> {[ "Upgrade" := ["websocket"] ]}
               | None => {[ "Upgrade" := ["websocket"] ]}
               end |}.

Definition plain_request (p : string) : Request :=
  {| URL_Path := p; Header := ∅ |}.

(** A handshake on the configured path behind a forwarding proxy, a
    probe of another path, and a plain request of the configured path. *)
Definition forwarded : Request := request "/ws" (Some "203.0.113.7, 10.0.0.1").
Definition probe : Request := plain_request "/other".
Definition bare : Request := plain_request "/ws".

Definition settings (proxy : bool) (tls : bool) : MemoryStreamConfig :=
  {| ProtocolSettings := WebSocketSettings (mkConfig "ws" proxy);
     SecuritySettings :=
       if tls then Some (SecuritySettingsTLS (mk_v2tls_Config "example.org")) else None;
     SocketSettings := None |}.

Definition bind_address : Address.t := Address.mk AddressFamilyIPv4 (ip4 0 0 0 0) "".

(** A handshake that reaches the pipeline directly, a sink whose writes
    fail, settings of another transport, and a second consumer. *)
Definition direct : Request := request "/ws" None.

Definition broken_sink : ResponseWriter :=
  {| rw_header := ∅; rw_status := None; rw_sent := ∅; rw_body := "";
     rw_fault := Some (Foreign "write: broken pipe") |}.

Definition broken_world : State := with_resp (fun _ => broken_sink) (world tcp_peer).

Definition foreign_settings : MemoryStreamConfig :=
  {| ProtocolSettings := OtherSettings "mkcp";
     SecuritySettings := None;
     SocketSettings := None |}.

Definition other_consumer : ConnHandler := 43%nat.

End Lab.

(** * Properties *)

(** ** Running the monad *)

Ltac run :=
  unfold mbind, M_bind, mret, M_ret, panic, WriteToLog, Header_Set, WriteHeader, Write;
  simpl.

Lemma bind_Ok {A B} (m : M A) (f : A -> M B) (s : State) (a : A) (s' : State) :
  m s = Ok a s' -> (m ≫= f) s = f a s'.
Proof. intros E. unfold mbind, M_bind. by rewrite E. Qed.

Lemma bind_Panic {A B} (m : M A) (f : A -> M B) (s : State) (msg : string) (s' : State) :
  m s = Panic msg s' -> (m ≫= f) s = Panic msg s'.
Proof. intros E. unfold mbind, M_bind. by rewrite E. Qed.

(** ** The camouflage responder *)

Lemma camouflage_headers (hdr : gmap string string) :
  <["Content-Type":="text/html"]> (<["Server":="nginx"]> hdr) !! "Server" = Some "nginx" /\
  <["Content-Type":="text/html"]> (<["Server":="nginx"]> hdr) !! "Content-Type"
    = Some "text/html".
Proof.
  split.
  - rewrite lookup_insert_ne by discriminate. apply lookup_insert_eq.
  - apply lookup_insert_eq.
Qed.

Ltac camouflage :=
  run; unfold rw_Write, rw_WriteHeader, rw_Set; simpl;
  match goal with
  | |- context [match ?fault with Some _ => _ | None => _ end] =>
      destruct fault; simpl; run
  end;
  (eexists; split; [reflexivity|]; simpl; repeat split;
   try done; try apply camouflage_headers).

Lemma forbiddenHandler_spec (s : State) :
  pristine (resp s) ->
  exists s', forbiddenHandler s = Ok tt s' /\
    rw_status (resp s') = Some StatusForbidden /\
    rw_sent (resp s') !! "Server" = Some "nginx" /\
    rw_sent (resp s') !! "Content-Type" = Some "text/html" /\
    (rw_fault (resp s) = None -> rw_body (resp s') = forbiddenContent /\ logs s' = logs s) /\
    same_world s s'.
Proof.
  destruct s as [[hdr st sent body fault] a l lg d u g].
  unfold pristine; simpl. intros [-> ->].
  unfold forbiddenHandler. camouflage.
Qed.

Lemma notFoundHandler_spec (s : State) :
  pristine (resp s) ->
  exists s', notFoundHandler s = Ok tt s' /\
    rw_status (resp s') = Some StatusNotFound /\
    rw_sent (resp s') !! "Server" = Some "nginx" /\
    rw_sent (resp s') !! "Content-Type" = Some "text/html" /\
    (rw_fault (resp s) = None -> rw_body (resp s') = notFoundContent /\ logs s' = logs s) /\
    same_world s s'.
Proof.
  destruct s as [[hdr st sent body fault] a l lg d u g].
  unfold pristine; simpl. intros [-> ->].
  unfold notFoundHandler. camouflage.
Qed.

(** Whatever the sink has already sent, the responders return and touch
    nothing but the sink and the log. *)
Lemma forbiddenHandler_frame (s : State) :
  exists s', forbiddenHandler s = Ok tt s' /\ same_world s s'.
Proof.
  destruct s as [[hdr st sent body fault] a l lg d u g].
  unfold forbiddenHandler. run. unfold rw_Write, rw_WriteHeader, rw_Set. simpl.
  destruct st, fault; simpl; run; eexists; (split; [reflexivity|]); by repeat split.
Qed.

Lemma notFoundHandler_frame (s : State) :
  exists s', notFoundHandler s = Ok tt s' /\ same_world s s'.
Proof.
  destruct s as [[hdr st sent body fault] a l lg d u g].
  unfold notFoundHandler. run. unfold rw_Write, rw_WriteHeader, rw_Set. simpl.
  destruct st, fault; simpl; run; eexists; (split; [reflexivity|]); by repeat split.
Qed.

(** C5.  On a sink that has sent nothing yet, [forbiddenHandler] answers
    with status 403 and [notFoundHandler] with status 404; both send the
    header [Server: nginx], and unless the sink fails to write, the body is
    the fixed page [forbiddenContent], respectively [notFoundContent],
    byte for byte. *)
Theorem camouflage_responses (s : State) :
  pristine (resp s) ->
  exists sf sn,
    forbiddenHandler s = Ok tt sf /\
    notFoundHandler s = Ok tt sn /\
    rw_status (resp sf) = Some 403 /\
    rw_status (resp sn) = Some 404 /\
    rw_sent (resp sf) !! "Server" = Some "nginx" /\
    rw_sent (resp sn) !! "Server" = Some "nginx" /\
    (rw_fault (resp s) = None ->
       rw_body (resp sf) = forbiddenContent /\ rw_body (resp sn) = notFoundContent).
Proof.
  intros Hp.
  destruct (forbiddenHandler_spec s Hp) as (sf & Ef & Hsf & Hvf & _ & Hbf & _).
  destruct (notFoundHandler_spec s Hp) as (sn & En & Hsn & Hvn & _ & Hbn & _).
  exists sf, sn. do 6 (split; [done|]).
  intros F. destruct (Hbf F) as [-> _], (Hbn F) as [-> _]. done.
Qed.

(** ** The upgrade dispatcher *)

Section Dispatcher.
Context `{Collaborators}.

(** [Upgrade], run with the upgrader of this package. *)
Lemma Upgrade_refused (r : Request) (s : State) (status : Z) (reason : string) :
  handshake r = Refused status reason ->
  Upgrade upgrader r s =
    (forbiddenHandler;; mret (None, Some (Foreign reason)))
      (with_upgrades (fun l => l ++ [attempt r]) s).
Proof. intros E. unfold Upgrade. rewrite E. reflexivity. Qed.

Lemma Upgrade_accepted (r : Request) (s : State) (c : WsConn) :
  handshake r = Accepted c ->
  Upgrade upgrader r s = Ok (Some c, None) (with_upgrades (fun l => l ++ [attempt r]) s).
Proof. intros E. unfold Upgrade. rewrite E. reflexivity. Qed.

Lemma ServeHTTP_mismatch (h : requestHandler) (r : Request) (s : State) :
  URL_Path r ≠ path h -> ServeHTTP h r s = notFoundHandler s.
Proof. intros Hne. unfold ServeHTTP. by rewrite bool_decide_eq_true_2. Qed.

Lemma ServeHTTP_refused (h : requestHandler) (r : Request) (s : State)
    (status : Z) (reason : string) :
  URL_Path r = path h ->
  handshake r = Refused status reason ->
  ServeHTTP h r s =
    (forbiddenHandler;;
     WriteToLog (Base (newError [VStr "failed to convert to WebSocket connection"])
                      (Foreign reason)))
      (with_upgrades (fun l => l ++ [attempt r]) s).
Proof.
  intros Hp Hr. unfold ServeHTTP.
  rewrite bool_decide_eq_false_2 by (intros E; by apply E).
  destruct (forbiddenHandler_frame (with_upgrades (fun l => l ++ [attempt r]) s))
    as (s1 & E & _).
  erewrite bind_Ok; cycle 1.
  { rewrite (Upgrade_refused _ _ _ _ Hr). erewrite bind_Ok by exact E. reflexivity. }
  by erewrite bind_Ok by exact E.
Qed.

Lemma ServeHTTP_accepted (h : requestHandler) (r : Request) (s : State) (c : WsConn) :
  URL_Path r = path h ->
  handshake r = Accepted c ->
  ServeHTTP h r s =
    (match ParseXForwardedFor (Header r) with
     | first :: _ =>
         if IsIP (Address.Family first)
         then assign_TCPAddr_IP (RemoteAddr c) (Address.IP first)
         else mret tt
     | [] => mret tt
     end;;
     call_addConn (ln h) (newConnection c (RemoteAddr c)))
      (with_upgrades (fun l => l ++ [attempt r]) s).
Proof.
  intros Hp Hr. unfold ServeHTTP.
  rewrite bool_decide_eq_false_2 by (intros E; by apply E).
  erewrite bind_Ok by (by apply Upgrade_accepted). reflexivity.
Qed.

(** C2.  A request whose path is not the configured one is answered, on
    a sink that has sent nothing yet, with status 404, the header
    [Server: nginx] and (unless the sink fails to write) exactly the
    fixed 404 page; no upgrade is attempted and no consumer callback is
    invoked. *)
Theorem ServeHTTP_path_mismatch (h : requestHandler) (r : Request) (s : State) :
  URL_Path r ≠ path h ->
  pristine (resp s) ->
  exists s', ServeHTTP h r s = Ok tt s' /\
    rw_status (resp s') = Some 404 /\
    rw_sent (resp s') !! "Server" = Some "nginx" /\
    (rw_fault (resp s) = None -> rw_body (resp s') = notFoundContent) /\
    upgrades s' = upgrades s /\
    delivered s' = delivered s.
Proof.
  intros Hne Hp. rewrite (ServeHTTP_mismatch _ _ _ Hne).
  destruct (notFoundHandler_spec s Hp) as (s' & E & Hst & Hsrv & _ & Hbody & W).
  destruct W as (_ & _ & Hd & Hu & _).
  exists s'. do 3 (split; [done|]). split; [|done].
  intros F. by destruct (Hbody F).
Qed.

(** C3.  A request on the configured path whose upgrade the handshake
    refuses is answered, through the error callback of the upgrader, with
    status 403, the header [Server: nginx] and (unless the sink fails to
    write) exactly the fixed 403 page; the last entry of the log carries
    the cause of the refusal; no consumer callback is invoked. *)
Theorem ServeHTTP_upgrade_refused (h : requestHandler) (r : Request) (s : State)
    (status : Z) (reason : string) :
  URL_Path r = path h ->
  handshake r = Refused status reason ->
  pristine (resp s) ->
  exists s', ServeHTTP h r s = Ok tt s' /\
    rw_status (resp s') = Some 403 /\
    rw_sent (resp s') !! "Server" = Some "nginx" /\
    (rw_fault (resp s) = None -> rw_body (resp s') = forbiddenContent) /\
    last (logs s') =
      Some (Caused [VStr "failed to convert to WebSocket connection"] SeverityInfo
              (Foreign reason)) /\
    delivered s' = delivered s.
Proof.
  intros Hp Hr Hs. rewrite (ServeHTTP_refused _ _ _ _ _ Hp Hr).
  destruct (forbiddenHandler_spec (with_upgrades (fun l => l ++ [attempt r]) s) Hs)
    as (s1 & E & Hst & Hsrv & _ & Hbody & W).
  destruct W as (_ & _ & Hd & _ & _).
  erewrite bind_Ok by exact E.
  unfold WriteToLog. eexists; split; [reflexivity|].
  destruct s1; simpl in *. do 2 (split; [done|]). split; [|split; [|done]].
  - intros F. by destruct (Hbody F).
  - apply last_snoc.
Qed.



(** C9.  When the upgrade succeeds, the forwarding header starts with a
    valid IP and the address object the connection reports is not a TCP
    address, the handler panics: the consumer callback is not invoked
    and no address is rewritten. *)
Theorem ServeHTTP_panics_on_foreign_address (h : requestHandler) (r : Request)
    (s : State) (c : WsConn) (first : Address.t) (rest : list Address.t) (a : Addr) :
  URL_Path r = path h ->
  handshake r = Accepted c ->
  ParseXForwardedFor (Header r) = first :: rest ->
  IsIP (Address.Family first) = true ->
  addrs s !! RemoteAddr c = Some a ->
  (forall t, a ≠ AddrTCP t) ->
  exists msg s', ServeHTTP h r s = Panic msg s' /\
    delivered s' = delivered s /\
    addrs s' = addrs s.
Proof.
  intros Hp Hr Hx Hip Ha Hn.
  rewrite (ServeHTTP_accepted _ _ _ _ Hp Hr), Hx, Hip.
  destruct a as [t | u | u]; [by destruct (Hn t) | |].
  all: eexists _, _; split;
    [ apply bind_Panic; unfold assign_TCPAddr_IP; simpl; rewrite Ha; reflexivity
    | by destruct s ].
Qed.

(** C10.  When the upgrade succeeds, the forwarding header starts with a
    valid IP and the connection reports a TCP address, that address
    object is updated where it lies: its IP becomes the forwarded one, its
    port and zone stay, every other object of the store stays; the
    connection handed to the consumer carries the location of that very
    object, so that the upgraded connection itself now reports the
    rewritten address. *)
Theorem ServeHTTP_rewrites_in_place (h : requestHandler) (r : Request) (s : State)
    (c : WsConn) (first : Address.t) (rest : list Address.t) (t : TCPAddr.t)
    (l : Listener) :
  URL_Path r = path h ->
  handshake r = Accepted c ->
  ParseXForwardedFor (Header r) = first :: rest ->
  IsIP (Address.Family first) = true ->
  addrs s !! RemoteAddr c = Some (AddrTCP t) ->
  listeners s !! ln h = Some l ->
  exists s' k,
    ServeHTTP h r s = Ok tt s' /\
    delivered s' = delivered s ++ [(addConn l, k)] /\
    conn k = c /\
    remoteAddr k = RemoteAddr c /\
    addrs s' =
      <[RemoteAddr c :=
          AddrTCP (TCPAddr.mk (Address.IP first) (TCPAddr.Port t) (TCPAddr.Zone t))]>
        (addrs s) /\
    addrs s' !! RemoteAddr (conn k) =
      Some (AddrTCP (TCPAddr.mk (Address.IP first) (TCPAddr.Port t) (TCPAddr.Zone t))).
Proof.
  intros Hp Hr Hx Hip Ha Hl.
  rewrite (ServeHTTP_accepted _ _ _ _ Hp Hr), Hx, Hip.
  eexists _, (newConnection c (RemoteAddr c)). split.
  - erewrite bind_Ok; cycle 1.
    { unfold assign_TCPAddr_IP; simpl. rewrite Ha. reflexivity. }
    unfold call_addConn; simpl. rewrite Hl. reflexivity.
  - simpl. do 4 (split; [done|]). apply lookup_insert_eq.
Qed.

(** Without a valid IP at the head of the forwarding header (no header,
    an empty one, or a first entry that is no IP), the connection is
    handed over once with the address object it reports, left as it is:
    a malformed header raises nothing. *)
Lemma ServeHTTP_passes_through (h : requestHandler) (r : Request) (s : State)
    (c : WsConn) (l : Listener) :
  URL_Path r = path h ->
  handshake r = Accepted c ->
  match ParseXForwardedFor (Header r) with
  | first :: _ => IsIP (Address.Family first) = false
  | [] => True
  end ->
  listeners s !! ln h = Some l ->
  exists s',
    ServeHTTP h r s = Ok tt s' /\
    delivered s' = delivered s ++ [(addConn l, newConnection c (RemoteAddr c))] /\
    addrs s' = addrs s.
Proof.
  intros Hp Hr Hx Hl.
  rewrite (ServeHTTP_accepted _ _ _ _ Hp Hr).
  erewrite bind_Ok; cycle 1.
  { instantiate (1 := with_upgrades (fun l => l ++ [attempt r]) s).
    instantiate (1 := tt).
    destruct (ParseXForwardedFor (Header r)) as [|first ?]; [done|]. by rewrite Hx. }
  unfold call_addConn; simpl. rewrite Hl. by eexists.
Qed.
End Dispatcher.

(** ** The listener pipeline *)

Lemma GetNormalizedPath_slash (c : Config) :
  exists rest, GetNormalizedPath c = String "/" rest.
Proof.
  unfold GetNormalizedPath. destruct (Path c) as [|a p] eqn:E; [by eexists|].
  destruct (decide (a = "/"%char)) as [->|Hne]; [by eexists|].
  exists (String a p).
  destruct a as [[] [] [] [] [] [] [] []]; try reflexivity. by destruct Hne.
Qed.

Section Pipeline.
Context `{Collaborators}.

(** What [ListenWS] builds once the system listener is open and the
    protocol settings are those of this package. *)
Lemma ListenWS_success (address : Address.t) (port : Z) (ss : MemoryStreamConfig)
    (cb : ConnHandler) (s : State) (sys : StreamListener) (cfg : Config) :
  ListenSystem (TCPAddr.mk (Address.IP address) port "") (SocketSettings ss) = inl sys ->
  ProtocolSettings ss = WebSocketSettings cfg ->
  let l := fresh (dom (listeners s)) in
  let inner :=
    if AcceptProxyProtocol cfg then ProxyListener (SystemListener sys) policyFunc
    else SystemListener sys in
  let composed :=
    match ConfigFromStreamSettings ss with
    | Some c =>
        match GetTLSConfig c with
        | Some t => TLSListener inner t
        | None => inner
        end
    | None => inner
    end in
  exists s',
    ListenWS address port ss cb s = Ok (Some l, None) s' /\
    listeners s' !! l =
      Some (mkListener
              (mkServer (Some (mkRequestHandler (GetNormalizedPath cfg) l))
                        (4 * Second) 2048)
              composed cfg cb) /\
    (forall l', l' ≠ l -> listeners s' !! l' = listeners s !! l') /\
    listeners s !! l = None /\
    serving s' = serving s ++ [l].
Proof.
  intros Hsys Hcfg l inner composed.
  assert (Hfresh : listeners s !! l = None).
  { apply not_elem_of_dom. apply is_fresh. }
  unfold ListenWS. rewrite Hsys, Hcfg.
  unfold mbind, M_bind, mret, M_ret, WriteToLog, assert_Config, new_Listener,
    set_server, go_Serve.
  simpl.
  destruct (AcceptProxyProtocol cfg) eqn:Hproxy; simpl;
    fold l; rewrite lookup_insert_eq; simpl;
    (eexists; split; [reflexivity|]; simpl;
     split; [rewrite insert_insert_eq; apply lookup_insert_eq|];
     split; [intros l' Hne; rewrite insert_insert_eq; by apply lookup_insert_ne|];
     done).
Qed.

(** C6.  Once the system listener is open, [ListenWS] returns a pipeline
    whose composed listener is the system listener, inside the
    PROXY-protocol listener with the policy REQUIRE exactly when the
    configuration asks for the preamble, inside the TLS listener exactly
    when a transport-security configuration is found; the TLS layer,
    applied last, never lies inside the PROXY-protocol layer. *)
Theorem ListenWS_wrapping_order (address : Address.t) (port : Z)
    (ss : MemoryStreamConfig) (cb : ConnHandler) (s : State)
    (sys : StreamListener) (cfg : Config) :
  ListenSystem (TCPAddr.mk (Address.IP address) port "") (SocketSettings ss) = inl sys ->
  ProtocolSettings ss = WebSocketSettings cfg ->
  exists l s' o,
    ListenWS address port ss cb s = Ok (Some l, None) s' /\
    listeners s' !! l = Some o /\
    listener o =
      (let inner :=
         if AcceptProxyProtocol cfg then ProxyListener (SystemListener sys) policyFunc
         else SystemListener sys in
       match ConfigFromStreamSettings ss with
       | Some c =>
           match GetTLSConfig c with
           | Some t => TLSListener inner t
           | None => inner
           end
       | None => inner
       end) /\
    (forall upstream, policyFunc upstream = (REQUIRE, None)) /\
    has_proxy (listener o) = AcceptProxyProtocol cfg /\
    (has_tls (listener o) = true <->
       exists c t, ConfigFromStreamSettings ss = Some c /\ GetTLSConfig c = Some t) /\
    tls_outside_proxy (listener o) = true.
Proof.
  intros Hsys Hcfg.
  destruct (ListenWS_success address port ss cb s sys cfg Hsys Hcfg)
    as (s' & E & Hl & _).
  eexists _, s', _. split; [exact E|]. split; [exact Hl|]. simpl.
  split; [reflexivity|]. split; [done|].
  destruct (ConfigFromStreamSettings ss) as [c|] eqn:Hc;
    [destruct (GetTLSConfig c) as [t|] eqn:Ht|];
    destruct (AcceptProxyProtocol cfg); simpl; (split; [done|]); (split; [|done]);
    split; intros Hx;
    try discriminate; try (by eexists _, _); try done;
    destruct Hx as (c' & t' & Hc' & Ht'); simplify_eq.
Qed.

(** C8.  Once the system listener is open, the HTTP server of the
    pipeline [ListenWS] returns has for handler the upgrade dispatcher on
    the normalized path of the configuration, bound to that very
    pipeline and so to the consumer given to [ListenWS]; its header-read
    timeout is four seconds and its header limit 2048 bytes; it is the
    server the accept loop is started on. *)
Theorem ListenWS_server (address : Address.t) (port : Z)
    (ss : MemoryStreamConfig) (cb : ConnHandler) (s : State)
    (sys : StreamListener) (cfg : Config) :
  ListenSystem (TCPAddr.mk (Address.IP address) port "") (SocketSettings ss) = inl sys ->
  ProtocolSettings ss = WebSocketSettings cfg ->
  exists l s' o,
    ListenWS address port ss cb s = Ok (Some l, None) s' /\
    listeners s' !! l = Some o /\
    Handler (server o) = Some {| path := GetNormalizedPath cfg; ln := l |} /\
    ReadHeaderTimeout (server o) = 4 * Second /\
    MaxHeaderBytes (server o) = 2048 /\
    addConn o = cb /\
    serving s' = serving s ++ [l].
Proof.
  intros Hsys Hcfg.
  destruct (ListenWS_success address port ss cb s sys cfg Hsys Hcfg)
    as (s' & E & Hl & _ & _ & Hg).
  eexists _, s', _. split; [exact E|]. split; [exact Hl|]. by simpl.
Qed.
End Pipeline.

(** ** Closing the pipeline *)

Lemma NetListener_Close_underlying (l : NetListener) :
  underlying (fst (NetListener_Close l)) =
    mkStreamListener (sl_addr (underlying l)) (S (sl_closes (underlying l)))
                     (sl_onClose (underlying l)) /\
  snd (NetListener_Close l) = sl_onClose (underlying l) (sl_closes (underlying l)).
Proof.
  induction l as [u | inner IH policy | inner IH cfg]; simpl.
  - done.
  - destruct (NetListener_Close inner) as [inner' e]. exact IH.
  - destruct (NetListener_Close inner) as [inner' e]. exact IH.
Qed.

Lemma Listener_Close_once (ln : loc) (s : State) (l : Listener) :
  listeners s !! ln = Some l ->
  exists s' l',
    Listener_Close ln s =
      Ok (sl_onClose (underlying (listener l)) (sl_closes (underlying (listener l)))) s' /\
    listeners s' !! ln = Some l' /\
    sl_closes (underlying (listener l')) = S (sl_closes (underlying (listener l))) /\
    sl_onClose (underlying (listener l')) = sl_onClose (underlying (listener l)).
Proof.
  intros Hl. unfold Listener_Close. rewrite Hl.
  pose proof (NetListener_Close_underlying (listener l)) as [Hu He].
  destruct (NetListener_Close (listener l)) as [l1 e]; simpl in *. subst e.
  eexists _, _. split; [reflexivity|]. simpl. split; [apply lookup_insert_eq|].
  simpl. by rewrite Hu.
Qed.

(** C4, as the code has it.  [Close] keeps no memory of earlier calls:
    each call on a pipeline handle makes one [Close] call on the system
    listener beneath, through the wrappers, and returns its answer
    untouched.  So [n] calls in a row return the answers of the system
    listener to its next [n] [Close] calls, and the listener has then seen
    [n] more of them. *)
Theorem Listener_Close_delegates (n : nat) (ln : loc) (s : State) (l : Listener) :
  listeners s !! ln = Some l ->
  exists s',
    Close_times n ln s =
      Ok (map (sl_onClose (underlying (listener l)))
              (seq (sl_closes (underlying (listener l))) n)) s' /\
    closes_seen ln s' = (sl_closes (underlying (listener l)) + n)%nat.
Proof.
  revert s l. induction n as [|n IH]; intros s l Hl.
  - exists s. split; [reflexivity|]. unfold closes_seen. rewrite Hl. lia.
  - destruct (Listener_Close_once ln s l Hl) as (s1 & l1 & E & Hl1 & Hc & Ho).
    destruct (IH s1 l1 Hl1) as (s2 & E2 & Hc2).
    exists s2. split.
    + simpl. erewrite bind_Ok by exact E. erewrite bind_Ok by exact E2.
      rewrite Ho, Hc. reflexivity.
    + rewrite Hc2, Hc. lia.
Qed.

(** * Further properties *)

(** ** The camouflage responder under a failing sink *)

(** When the sink fails to write, both responders still return: the
    status line (403, resp. 404) has gone out, no body byte has, the log
    gains exactly one entry that names the responder and carries the
    error of the sink, and nothing else of the state moves. *)
Theorem camouflage_write_failure (s : State) (e : error) :
  pristine (resp s) ->
  rw_fault (resp s) = Some e ->
  exists sf sn,
    forbiddenHandler s = Ok tt sf /\
    notFoundHandler s = Ok tt sn /\
    logs sf = logs s ++ [Caused [VStr "failed to write forbidden response:"] SeverityInfo e] /\
    logs sn = logs s ++ [Caused [VStr "failed to write not found response:"] SeverityInfo e] /\
    rw_status (resp sf) = Some 403 /\
    rw_status (resp sn) = Some 404 /\
    rw_body (resp sf) = "" /\
    rw_body (resp sn) = "" /\
    same_world s sf /\ same_world s sn.
Proof.
  destruct s as [[hdr st sent body fault] a l lg d u g].
  unfold pristine; simpl. intros [-> ->] ->.
  eexists _, _. split; [reflexivity|]. split; [reflexivity|]. simpl.
  by repeat split.
Qed.

(** The two responders send the same headers: the header map they were
    given with [Server] and [Content-Type] set, frozen as sent; the
    answers differ in status and body only. *)
Theorem camouflage_same_headers (s : State) :
  pristine (resp s) ->
  rw_sent (resp (final (forbiddenHandler s))) = rw_sent (resp (final (notFoundHandler s))) /\
  rw_sent (resp (final (forbiddenHandler s))) =
    <["Content-Type" := "text/html"]> (<["Server" := "nginx"]> (rw_header (resp s))) /\
  rw_header (resp (final (forbiddenHandler s))) = rw_sent (resp (final (forbiddenHandler s))) /\
  rw_header (resp (final (notFoundHandler s))) = rw_sent (resp (final (notFoundHandler s))).
Proof.
  destruct s as [[hdr st sent body fault] a l lg d u g].
  unfold pristine; simpl. intros [-> ->].
  destruct fault; by repeat split.
Qed.

(** ** What the dispatcher touches *)

Lemma same_endpoint_refl a : same_endpoint a a.
Proof. by destruct a. Qed.

Section DispatcherFootprint.
Context `{Collaborators}.

(** A refused upgrade on a sink that fails to write: the handler
    returns, the log gains the write failure and then the failed
    conversion with its cause, in this order; the status 403 has gone
    out without a body and no consumer callback is invoked. *)
Theorem ServeHTTP_refused_write_failure (h : requestHandler) (r : Request) (s : State)
    (status : Z) (reason : string) (e : error) :
  URL_Path r = path h ->
  handshake r = Refused status reason ->
  pristine (resp s) ->
  rw_fault (resp s) = Some e ->
  exists s', ServeHTTP h r s = Ok tt s' /\
    logs s' = logs s ++
      [Caused [VStr "failed to write forbidden response:"] SeverityInfo e;
       Caused [VStr "failed to convert to WebSocket connection"] SeverityInfo
         (Foreign reason)] /\
    rw_status (resp s') = Some 403 /\
    rw_body (resp s') = "" /\
    delivered s' = delivered s.
Proof.
  intros Hp Hr Hs Hf. rewrite (ServeHTTP_refused _ _ _ _ _ Hp Hr).
  destruct s as [[hdr st sent body fault] a l lg d u g].
  unfold pristine in Hs; simpl in *. destruct Hs as [-> ->]. subst fault.
  eexists. split; [reflexivity|]. simpl. rewrite <- app_assoc. by repeat split.
Qed.

(** For every request and state, the handler invokes a consumer
    callback at most once; when it does, the path is the configured
    one, the handshake accepted the request, the handler returned
    without a panic, and the callback is the one of the pipeline the
    handler is bound to, given the upgraded connection with the address
    object it reports. *)
Theorem ServeHTTP_delivers_at_most_once (h : requestHandler) (r : Request) (s : State) :
  delivered (final (ServeHTTP h r s)) = delivered s \/
  exists c l,
    URL_Path r = path h /\
    handshake r = Accepted c /\
    listeners s !! ln h = Some l /\
    panicked (ServeHTTP h r s) = false /\
    delivered (final (ServeHTTP h r s)) =
      delivered s ++ [(addConn l, newConnection c (RemoteAddr c))].
Proof.
  destruct (decide (URL_Path r = path h)) as [Hp|Hp].
  - destruct (handshake r) as [c | status reason] eqn:Hr.
    + rewrite (ServeHTTP_accepted _ _ _ _ Hp Hr).
      unfold mbind, M_bind, mret, M_ret, assign_TCPAddr_IP, call_addConn.
      destruct (ParseXForwardedFor (Header r)) as [|first rest]; simpl.
      * destruct (listeners s !! ln h) as [l|] eqn:Hl; [|by left].
        right. by exists c, l.
      * destruct (IsIP (Address.Family first)); simpl.
        -- destruct (addrs s !! RemoteAddr c) as [[t|u|u]|]; simpl; try by left.
           destruct (listeners s !! ln h) as [l|] eqn:Hl; [|by left].
           right. by exists c, l.
        -- destruct (listeners s !! ln h) as [l|] eqn:Hl; [|by left].
           right. by exists c, l.
    + left. rewrite (ServeHTTP_refused _ _ _ _ _ Hp Hr).
      destruct (forbiddenHandler_frame (with_upgrades (fun l => l ++ [attempt r]) s))
        as (s1 & E & W).
      erewrite bind_Ok by exact E. by destruct W as (_ & _ & Hd & _).
  - left. rewrite (ServeHTTP_mismatch _ _ _ Hp).
    destruct (notFoundHandler_frame s) as (s1 & E & W). rewrite E.
    by destruct W as (_ & _ & Hd & _).
Qed.

(** For every request and state, the handler creates and drops no
    address object and changes no object's dynamic type; of a TCP
    address it keeps port and zone, and every other address it keeps
    whole. *)
Theorem ServeHTTP_keeps_endpoints (h : requestHandler) (r : Request) (s : State) (p : loc) :
  match addrs s !! p, addrs (final (ServeHTTP h r s)) !! p with
  | Some a, Some a' => same_endpoint a a'
  | None, None => True
  | _, _ => False
  end.
Proof.
  assert (Hsame : forall s', addrs s' = addrs s ->
            match addrs s !! p, addrs s' !! p with
            | Some a, Some a' => same_endpoint a a'
            | None, None => True
            | _, _ => False
            end).
  { intros s' ->. destruct (addrs s !! p); [apply same_endpoint_refl|done]. }
  destruct (decide (URL_Path r = path h)) as [Hp|Hp].
  - destruct (handshake r) as [c | status reason] eqn:Hr.
    + rewrite (ServeHTTP_accepted _ _ _ _ Hp Hr).
      unfold mbind, M_bind, mret, M_ret, assign_TCPAddr_IP, call_addConn.
      destruct (ParseXForwardedFor (Header r)) as [|first rest]; simpl.
      * destruct (listeners s !! ln h); by apply Hsame.
      * destruct (IsIP (Address.Family first)); simpl.
        -- destruct (addrs s !! RemoteAddr c) as [[t|u|u]|] eqn:Ha; simpl;
             try by apply Hsame.
           assert (Hins : match addrs s !! p,
                     <[RemoteAddr c := AddrTCP (TCPAddr.mk (Address.IP first)
                        (TCPAddr.Port t) (TCPAddr.Zone t))]> (addrs s) !! p with
                   | Some a, Some a' => same_endpoint a a'
                   | None, None => True
                   | _, _ => False
                   end).
           { destruct (decide (RemoteAddr c = p)) as [<-|Hne].
             - rewrite Ha, lookup_insert_eq. by simpl.
             - rewrite lookup_insert_ne by done.
               destruct (addrs s !! p); [apply same_endpoint_refl|done]. }
           by destruct (listeners s !! ln h).
        -- destruct (listeners s !! ln h); by apply Hsame.
    + rewrite (ServeHTTP_refused _ _ _ _ _ Hp Hr).
      destruct (forbiddenHandler_frame (with_upgrades (fun l => l ++ [attempt r]) s))
        as (s1 & E & W).
      erewrite bind_Ok by exact E. apply Hsame. by destruct W as (Ha & _).
  - rewrite (ServeHTTP_mismatch _ _ _ Hp).
    destruct (notFoundHandler_frame s) as (s1 & E & W). rewrite E.
    apply Hsame. by destruct W as (Ha & _).
Qed.

(** Once the handshake has accepted a request on the configured path,
    the handler writes nothing to the response sink and nothing to the
    log, and leaves every pipeline as it is, whether it then delivers
    the connection or panics. *)
Theorem ServeHTTP_success_is_silent (h : requestHandler) (r : Request) (s : State)
    (c : WsConn) :
  URL_Path r = path h ->
  handshake r = Accepted c ->
  resp (final (ServeHTTP h r s)) = resp s /\
  logs (final (ServeHTTP h r s)) = logs s /\
  listeners (final (ServeHTTP h r s)) = listeners s /\
  serving (final (ServeHTTP h r s)) = serving s.
Proof.
  intros Hp Hr. rewrite (ServeHTTP_accepted _ _ _ _ Hp Hr).
  unfold mbind, M_bind, mret, M_ret, assign_TCPAddr_IP, call_addConn.
  destruct (ParseXForwardedFor (Header r)) as [|first rest]; simpl.
  - by destruct (listeners s !! ln h).
  - destruct (IsIP (Address.Family first)); simpl.
    + destruct (addrs s !! RemoteAddr c) as [[t|u|u]|]; simpl; try done.
      by destruct (listeners s !! ln h).
    + by destruct (listeners s !! ln h).
Qed.
End DispatcherFootprint.

(** ** The life of a pipeline *)

Lemma NetListener_Addr_underlying (l : NetListener) :
  NetListener_Addr l = sl_addr (underlying l).
Proof. induction l as [u | inner IH policy | inner IH cfg]; by simpl. Qed.

Lemma NetListener_Close_shape (l : NetListener) :
  has_proxy (fst (NetListener_Close l)) = has_proxy l /\
  has_tls (fst (NetListener_Close l)) = has_tls l /\
  tls_outside_proxy (fst (NetListener_Close l)) = tls_outside_proxy l /\
  NetListener_Addr (fst (NetListener_Close l)) = NetListener_Addr l.
Proof.
  induction l as [u | inner IH policy | inner IH cfg]; simpl.
  - done.
  - destruct (NetListener_Close inner) as [inner' e]; simpl in *.
    destruct IH as (Hp & Ht & Ho & Ha). by rewrite Ht, Ho, Ha.
  - destruct (NetListener_Close inner) as [inner' e]; simpl in *.
    destruct IH as (Hp & Ht & Ho & Ha). by rewrite Hp, Ho, Ha.
Qed.

(** [Close] keeps the pipeline in the store with its server, its
    configuration, its consumer and the layers of its composed
    listener; [Addr] after [Close] still reports the address the
    listener had; the other pipelines, the address objects, the sink
    and the record of callbacks are untouched. *)
Theorem Listener_Close_preserves (ln : loc) (s : State) (o : Listener) :
  listeners s !! ln = Some o ->
  exists e s' o',
    Listener_Close ln s = Ok e s' /\
    listeners s' !! ln = Some o' /\
    server o' = server o /\ config o' = config o /\ addConn o' = addConn o /\
    has_proxy (listener o') = has_proxy (listener o) /\
    has_tls (listener o') = has_tls (listener o) /\
    tls_outside_proxy (listener o') = tls_outside_proxy (listener o) /\
    Listener_Addr ln s' = Ok (NetListener_Addr (listener o)) s' /\
    (forall l', l' ≠ ln -> listeners s' !! l' = listeners s !! l') /\
    addrs s' = addrs s /\ delivered s' = delivered s /\ resp s' = resp s.
Proof.
  intros Hl. unfold Listener_Close. rewrite Hl.
  pose proof (NetListener_Close_shape (listener o)) as (Hp & Ht & Ho & Ha).
  destruct (NetListener_Close (listener o)) as [l1 e]; simpl in *.
  eexists _, _, _. split; [reflexivity|]. simpl.
  split; [apply lookup_insert_eq|]. simpl. do 6 (split; [done|]).
  split.
  { unfold Listener_Addr; simpl. rewrite lookup_insert_eq. simpl. by rewrite Ha. }
  split; [|done]. intros l' Hne. by apply lookup_insert_ne.
Qed.

Section PipelineLifecycle.
Context `{Collaborators}.

(** The bind failure, returned with its cause. *)
Lemma ListenWS_bind_failure (address : Address.t) (port : Z) (ss : MemoryStreamConfig)
    (cb : ConnHandler) (s : State) (err : error) :
  ListenSystem (TCPAddr.mk (Address.IP address) port "") (SocketSettings ss) = inr err ->
  ListenWS address port ss cb s =
    Ok (None,
        Some (Caused [VStr "failed to listen TCP(for WS) on"; VAddress address;
                      VStr ":"; VPort port] SeverityInfo err)) s.
Proof. intros E. unfold ListenWS. by rewrite E. Qed.

(** When the protocol settings are not those of this package,
    [ListenWS] panics on its type assertion after the system listener
    has been opened and the listening message logged: no pipeline is
    stored and no accept loop started, so the open listener is left
    without a handle to close it. *)
Theorem ListenWS_foreign_settings_panic (address : Address.t) (port : Z)
    (ss : MemoryStreamConfig) (cb : ConnHandler) (s : State) (sys : StreamListener) :
  ListenSystem (TCPAddr.mk (Address.IP address) port "") (SocketSettings ss) = inl sys ->
  (forall cfg, ProtocolSettings ss ≠ WebSocketSettings cfg) ->
  exists msg s',
    ListenWS address port ss cb s = Panic msg s' /\
    logs s' = logs s ++ [Plain [VStr "listening TCP(for WS) on "; VAddress address;
                                VStr ":"; VPort port] SeverityInfo] /\
    listeners s' = listeners s /\
    serving s' = serving s.
Proof.
  intros Hsys Hn. unfold ListenWS. rewrite Hsys.
  unfold mbind, M_bind, mret, M_ret, WriteToLog, assert_Config, panic. simpl.
  destruct (ProtocolSettings ss) as [cfg| |] eqn:Hs; [by destruct (Hn cfg)| |];
    by eexists _, _.
Qed.

(** A successful [ListenWS] logs the listening message, followed by the
    warning about the PROXY protocol exactly when the configuration
    asks for the preamble; it leaves the sink, the address objects and
    the records of callbacks and upgrade attempts alone, and every
    pipeline already in the store stays as it is. *)
Theorem ListenWS_effects (address : Address.t) (port : Z) (ss : MemoryStreamConfig)
    (cb : ConnHandler) (s : State) (sys : StreamListener) (cfg : Config) :
  ListenSystem (TCPAddr.mk (Address.IP address) port "") (SocketSettings ss) = inl sys ->
  ProtocolSettings ss = WebSocketSettings cfg ->
  exists l s',
    ListenWS address port ss cb s = Ok (Some l, None) s' /\
    logs s' = logs s ++
      Plain [VStr "listening TCP(for WS) on "; VAddress address; VStr ":"; VPort port]
            SeverityInfo ::
      (if AcceptProxyProtocol cfg
       then [Plain [VStr "accepting PROXY protocol"] SeverityWarning] else []) /\
    resp s' = resp s /\ addrs s' = addrs s /\ delivered s' = delivered s /\
    upgrades s' = upgrades s /\
    (forall l' o, listeners s !! l' = Some o -> listeners s' !! l' = Some o).
Proof.
  intros Hsys Hcfg.
  destruct (ListenWS_success address port ss cb s sys cfg Hsys Hcfg)
    as (s' & E & Hl & Hother & Hfresh & Hg).
  eexists _, s'. split; [exact E|].
  split; [|split; [|split; [|split; [|split]]]].
  6: { intros l' o Ho. rewrite Hother; [done|]. intros ->. congruence. }
  all: revert E; unfold ListenWS; rewrite Hsys, Hcfg;
    unfold mbind, M_bind, mret, M_ret, WriteToLog, assert_Config, new_Listener,
      set_server, go_Serve; simpl;
    destruct (AcceptProxyProtocol cfg); simpl; rewrite lookup_insert_eq; simpl;
    intros [= <-]; simpl; try done.
  by rewrite <- app_assoc.
Qed.

(** The outcomes of [ListenWS], for every input.  It returns a handle and
    no error, or no handle and an error, never both and never neither.
    A handle comes only from an open system listener under settings of
    this package; it is new, it names a stored pipeline, and one accept
    loop has been started, on it.  An error comes only from a system
    listener that could not be opened; it names address and port and
    carries the cause, and the state is what it was: nothing logged,
    stored or started.  A panic comes only from settings of another
    kind, and stores and starts nothing. *)
Theorem ListenWS_outcomes (address : Address.t) (port : Z) (ss : MemoryStreamConfig)
    (cb : ConnHandler) (s : State) :
  match ListenWS address port ss cb s with
  | Ok (Some l, None) s' =>
      (exists sys cfg,
         ListenSystem (TCPAddr.mk (Address.IP address) port "") (SocketSettings ss)
           = inl sys /\
         ProtocolSettings ss = WebSocketSettings cfg) /\
      listeners s !! l = None /\
      is_Some (listeners s' !! l) /\
      serving s' = serving s ++ [l]
  | Ok (None, Some e) s' =>
      s' = s /\
      exists err,
        ListenSystem (TCPAddr.mk (Address.IP address) port "") (SocketSettings ss)
          = inr err /\
        e = Caused [VStr "failed to listen TCP(for WS) on"; VAddress address;
                    VStr ":"; VPort port] SeverityInfo err
  | Ok _ _ => False
  | Panic _ s' =>
      (exists sys,
         ListenSystem (TCPAddr.mk (Address.IP address) port "") (SocketSettings ss)
           = inl sys) /\
      (forall cfg, ProtocolSettings ss ≠ WebSocketSettings cfg) /\
      listeners s' = listeners s /\
      serving s' = serving s
  end.
Proof.
  destruct (ListenSystem (TCPAddr.mk (Address.IP address) port "") (SocketSettings ss))
    as [sys|err] eqn:Hsys.
  - destruct (ProtocolSettings ss) as [cfg|c|name] eqn:Hcfg.
    + destruct (ListenWS_success address port ss cb s sys cfg Hsys Hcfg)
        as (s' & E & Hl & _ & Hfresh & Hg).
      rewrite E. split; [by exists sys, cfg|]. split; [exact Hfresh|].
      split; [by eexists|exact Hg].
    + unfold ListenWS. rewrite Hsys.
      unfold mbind, M_bind, mret, M_ret, WriteToLog, assert_Config, panic. simpl.
      rewrite Hcfg. split; [by exists sys|]. by split.
    + unfold ListenWS. rewrite Hsys.
      unfold mbind, M_bind, mret, M_ret, WriteToLog, assert_Config, panic. simpl.
      rewrite Hcfg. split; [by exists sys|]. by split.
  - rewrite (ListenWS_bind_failure address port ss cb s err Hsys).
    split; [done|]. by exists err.
Qed.

(** Two successive calls of [ListenWS] return different handles; the
    second call leaves the pipeline of the first as it was, and each
    pipeline sits on its own system listener and is bound to its own
    consumer. *)
Theorem ListenWS_handles_distinct
    (a1 a2 : Address.t) (p1 p2 : Z) (ss1 ss2 : MemoryStreamConfig)
    (cb1 cb2 : ConnHandler) (s : State) (sys1 sys2 : StreamListener) (c1 c2 : Config) :
  ListenSystem (TCPAddr.mk (Address.IP a1) p1 "") (SocketSettings ss1) = inl sys1 ->
  ProtocolSettings ss1 = WebSocketSettings c1 ->
  ListenSystem (TCPAddr.mk (Address.IP a2) p2 "") (SocketSettings ss2) = inl sys2 ->
  ProtocolSettings ss2 = WebSocketSettings c2 ->
  exists l1 s1 l2 s2 o1 o2,
    ListenWS a1 p1 ss1 cb1 s = Ok (Some l1, None) s1 /\
    ListenWS a2 p2 ss2 cb2 s1 = Ok (Some l2, None) s2 /\
    l1 ≠ l2 /\
    listeners s1 !! l1 = Some o1 /\
    listeners s2 !! l1 = Some o1 /\
    listeners s2 !! l2 = Some o2 /\
    addConn o1 = cb1 /\ addConn o2 = cb2 /\
    underlying (listener o1) = sys1 /\ underlying (listener o2) = sys2.
Proof.
  intros Hs1 Hc1 Hs2 Hc2.
  destruct (ListenWS_success a1 p1 ss1 cb1 s sys1 c1 Hs1 Hc1)
    as (s1 & E1 & Hl1 & _ & _ & _).
  destruct (ListenWS_success a2 p2 ss2 cb2 s1 sys2 c2 Hs2 Hc2)
    as (s2 & E2 & Hl2 & Hother & Hfresh & _).
  assert (Hne : fresh (dom (listeners s)) ≠ fresh (dom (listeners s1))).
  { intros Heq. rewrite Heq in Hl1. congruence. }
  eexists _, s1, _, s2, _, _. split; [exact E1|]. split; [exact E2|].
  split; [exact Hne|]. split; [exact Hl1|].
  split; [by rewrite Hother|]. split; [exact Hl2|]. simpl.
  do 2 (split; [done|]).
  split.
  - destruct (ConfigFromStreamSettings ss1) as [c|]; [destruct (GetTLSConfig c)|];
      by destruct (AcceptProxyProtocol c1).
  - destruct (ConfigFromStreamSettings ss2) as [c|]; [destruct (GetTLSConfig c)|];
      by destruct (AcceptProxyProtocol c2).
Qed.

Lemma ListenWS_underlying (address : Address.t) (port : Z) (ss : MemoryStreamConfig)
    (cb : ConnHandler) (s : State) (sys : StreamListener) (cfg : Config) :
  ListenSystem (TCPAddr.mk (Address.IP address) port "") (SocketSettings ss) = inl sys ->
  ProtocolSettings ss = WebSocketSettings cfg ->
  exists l s' o,
    ListenWS address port ss cb s = Ok (Some l, None) s' /\
    listeners s' !! l = Some o /\
    underlying (listener o) = sys /\
    Handler (server o) = Some (mkRequestHandler (GetNormalizedPath cfg) l) /\
    addConn o = cb /\
    delivered s' = delivered s.
Proof.
  intros Hsys Hcfg.
  destruct (ListenWS_success address port ss cb s sys cfg Hsys Hcfg)
    as (s' & E & Hl & _).
  assert (Hd : delivered s' = delivered s).
  { revert E. unfold ListenWS. rewrite Hsys, Hcfg.
    unfold mbind, M_bind, mret, M_ret, WriteToLog, assert_Config, new_Listener,
      set_server, go_Serve. simpl.
    destruct (AcceptProxyProtocol cfg); simpl; rewrite lookup_insert_eq; simpl;
      by intros [= <-]. }
  eexists _, s', _. split; [exact E|]. split; [exact Hl|]. simpl.
  split; [|done].
  destruct (ConfigFromStreamSettings ss) as [c|]; [destruct (GetTLSConfig c)|];
    by destruct (AcceptProxyProtocol cfg).
Qed.

(** [Addr] on the handle [ListenWS] returns reports the address of the
    system listener, whatever wrappers lie around it, and changes
    nothing. *)
Theorem ListenWS_then_Addr (address : Address.t) (port : Z) (ss : MemoryStreamConfig)
    (cb : ConnHandler) (s : State) (sys : StreamListener) (cfg : Config) :
  ListenSystem (TCPAddr.mk (Address.IP address) port "") (SocketSettings ss) = inl sys ->
  ProtocolSettings ss = WebSocketSettings cfg ->
  exists l s',
    ListenWS address port ss cb s = Ok (Some l, None) s' /\
    Listener_Addr l s' = Ok (sl_addr sys) s'.
Proof.
  intros Hsys Hcfg.
  destruct (ListenWS_underlying address port ss cb s sys cfg Hsys Hcfg)
    as (l & s' & o & E & Hl & Hu & _).
  exists l, s'. split; [exact E|].
  unfold Listener_Addr. rewrite Hl. by rewrite NetListener_Addr_underlying, Hu.
Qed.

(** The first [Close] on the handle [ListenWS] returns reaches the
    system listener once, through whatever wrappers lie around it, and
    returns the answer of the system listener. *)
Theorem ListenWS_then_Close (address : Address.t) (port : Z) (ss : MemoryStreamConfig)
    (cb : ConnHandler) (s : State) (sys : StreamListener) (cfg : Config) :
  ListenSystem (TCPAddr.mk (Address.IP address) port "") (SocketSettings ss) = inl sys ->
  ProtocolSettings ss = WebSocketSettings cfg ->
  exists l s' s'',
    ListenWS address port ss cb s = Ok (Some l, None) s' /\
    Listener_Close l s' = Ok (sl_onClose sys (sl_closes sys)) s'' /\
    closes_seen l s'' = S (sl_closes sys).
Proof.
  intros Hsys Hcfg.
  destruct (ListenWS_underlying address port ss cb s sys cfg Hsys Hcfg)
    as (l & s' & o & E & Hl & Hu & _).
  destruct (Listener_Close_once l s' o Hl) as (s'' & o' & E' & Hl' & Hc & _).
  exists l, s', s''. split; [exact E|]. rewrite Hu in *. split; [exact E'|].
  unfold closes_seen. by rewrite Hl'.
Qed.

(** From listening to delivery: a request on the normalized path that
    the handshake accepts and whose forwarding header does not start
    with a valid IP, served by the handler of the server [ListenWS]
    built, reaches the consumer given to [ListenWS], once, with the
    upgraded connection. *)
Theorem ListenWS_then_ServeHTTP (address : Address.t) (port : Z) (ss : MemoryStreamConfig)
    (cb : ConnHandler) (s : State) (sys : StreamListener) (cfg : Config)
    (r : Request) (c : WsConn) :
  ListenSystem (TCPAddr.mk (Address.IP address) port "") (SocketSettings ss) = inl sys ->
  ProtocolSettings ss = WebSocketSettings cfg ->
  URL_Path r = GetNormalizedPath cfg ->
  handshake r = Accepted c ->
  match ParseXForwardedFor (Header r) with
  | first :: _ => IsIP (Address.Family first) = false
  | [] => True
  end ->
  exists l s1 o h s2,
    ListenWS address port ss cb s = Ok (Some l, None) s1 /\
    listeners s1 !! l = Some o /\
    Handler (server o) = Some h /\
    ServeHTTP h r s1 = Ok tt s2 /\
    delivered s2 = delivered s ++ [(cb, newConnection c (RemoteAddr c))].
Proof.
  intros Hsys Hcfg Hp Hr Hx.
  destruct (ListenWS_underlying address port ss cb s sys cfg Hsys Hcfg)
    as (l & s1 & o & E & Hl & _ & Hh & Hcb & Hd).
  destruct (ServeHTTP_passes_through (mkRequestHandler (GetNormalizedPath cfg) l)
              r s1 c o Hp Hr Hx Hl) as (s2 & E2 & Hd2 & _).
  exists l, s1, o, (mkRequestHandler (GetNormalizedPath cfg) l), s2. split; [exact E|]. split; [exact Hl|].
  split; [exact Hh|]. split; [exact E2|]. by rewrite Hd2, Hd, Hcb.
Qed.
End PipelineLifecycle.

(** * The properties at work in the concrete setting *)

#[local] Existing Instance Lab.collaborators.

Lemma camouflage_responses_witness :
  pristine (resp (Lab.world Lab.tcp_peer)) /\
  exists sf sn,
    forbiddenHandler (Lab.world Lab.tcp_peer) = Ok tt sf /\
    notFoundHandler (Lab.world Lab.tcp_peer) = Ok tt sn /\
    rw_status (resp sf) = Some 403 /\
    rw_status (resp sn) = Some 404 /\
    rw_sent (resp sf) !! "Server" = Some "nginx" /\
    rw_sent (resp sn) !! "Server" = Some "nginx" /\
    (rw_fault (resp (Lab.world Lab.tcp_peer)) = None ->
       rw_body (resp sf) = forbiddenContent /\ rw_body (resp sn) = notFoundContent).
Proof.
  split; [split; reflexivity|].
  apply (camouflage_responses (Lab.world Lab.tcp_peer)). split; reflexivity.
Defined.

(** The probe of the spec: pipeline on [/ws], request of [/other]. *)
Lemma ServeHTTP_path_mismatch_witness :
  URL_Path Lab.probe ≠ path Lab.handler /\
  exists s', ServeHTTP (H := Lab.collaborators) Lab.handler Lab.probe
                       (Lab.world Lab.tcp_peer) = Ok tt s' /\
    rw_status (resp s') = Some 404 /\
    rw_sent (resp s') !! "Server" = Some "nginx" /\
    (rw_fault (resp (Lab.world Lab.tcp_peer)) = None ->
       rw_body (resp s') = notFoundContent) /\
    upgrades s' = upgrades (Lab.world Lab.tcp_peer) /\
    delivered s' = delivered (Lab.world Lab.tcp_peer).
Proof.
  split; [discriminate|].
  apply (ServeHTTP_path_mismatch (H := Lab.collaborators)).
  - discriminate.
  - split; reflexivity.
Defined.

Lemma ServeHTTP_upgrade_refused_witness :
  exists s', ServeHTTP (H := Lab.collaborators) Lab.handler Lab.bare
                       (Lab.world Lab.tcp_peer) = Ok tt s' /\
    rw_status (resp s') = Some 403 /\
    rw_sent (resp s') !! "Server" = Some "nginx" /\
    (rw_fault (resp (Lab.world Lab.tcp_peer)) = None ->
       rw_body (resp s') = forbiddenContent) /\
    last (logs s') =
      Some (Caused [VStr "failed to convert to WebSocket connection"] SeverityInfo
              (Foreign "websocket: the client is not using the websocket protocol")) /\
    delivered s' = delivered (Lab.world Lab.tcp_peer).
Proof.
  apply (ServeHTTP_upgrade_refused (H := Lab.collaborators) Lab.handler Lab.bare
           (Lab.world Lab.tcp_peer) 400).
  - reflexivity.
  - vm_compute. reflexivity.
  - split; reflexivity.
Defined.

Lemma ServeHTTP_panics_on_foreign_address_witness :
  exists msg s', ServeHTTP (H := Lab.collaborators) Lab.handler Lab.forwarded
                           (Lab.world Lab.udp_peer) = Panic msg s' /\
    delivered s' = delivered (Lab.world Lab.udp_peer) /\
    addrs s' = addrs (Lab.world Lab.udp_peer).
Proof.
  apply (ServeHTTP_panics_on_foreign_address (H := Lab.collaborators)
           Lab.handler Lab.forwarded (Lab.world Lab.udp_peer) Lab.peer Lab.client
           [Address.mk AddressFamilyDomain [] " 10.0.0.1"] Lab.udp_peer).
  - reflexivity.
  - vm_compute. reflexivity.
  - vm_compute. reflexivity.
  - reflexivity.
  - vm_compute. reflexivity.
  - intros t. discriminate.
Defined.

(** The scenario of the spec: header [203.0.113.7, 10.0.0.1], peer
    10.0.0.2:5555, resolved address 203.0.113.7:5555. *)
Lemma ServeHTTP_rewrites_in_place_witness :
  exists s' k,
    ServeHTTP (H := Lab.collaborators) Lab.handler Lab.forwarded
              (Lab.world Lab.tcp_peer) = Ok tt s' /\
    delivered s' = delivered (Lab.world Lab.tcp_peer) ++ [(addConn Lab.hub, k)] /\
    conn k = Lab.peer /\
    remoteAddr k = RemoteAddr Lab.peer /\
    addrs s' =
      <[RemoteAddr Lab.peer := AddrTCP (TCPAddr.mk (Address.IP Lab.client) 5555 "")]>
        (addrs (Lab.world Lab.tcp_peer)) /\
    addrs s' !! RemoteAddr (conn k) =
      Some (AddrTCP (TCPAddr.mk (ip4 203 0 113 7) 5555 "")).
Proof.
  apply (ServeHTTP_rewrites_in_place (H := Lab.collaborators)
           Lab.handler Lab.forwarded (Lab.world Lab.tcp_peer) Lab.peer Lab.client
           [Address.mk AddressFamilyDomain [] " 10.0.0.1"]
           (TCPAddr.mk (ip4 10 0 0 2) 5555 "") Lab.hub).
  - reflexivity.
  - vm_compute. reflexivity.
  - vm_compute. reflexivity.
  - reflexivity.
  - vm_compute. reflexivity.
  - vm_compute. reflexivity.
Defined.

(** C1, at an input where the code departs from it: the handshake
    succeeds, the forwarding header starts with the valid IP 203.0.113.7,
    and the stream beneath reports a UDP address (as a PROXY preamble for a
    datagram source makes it do).  The handler panics on its type
    assertion; the consumer callback is never invoked. *)
Theorem ServeHTTP_forwarded_udp_peer_panics :
  ServeHTTP (H := Lab.collaborators) Lab.handler Lab.forwarded (Lab.world Lab.udp_peer)
    = Panic "interface conversion: net.Addr is not *net.TCPAddr"
            (with_upgrades (fun _ => [attempt Lab.forwarded]) (Lab.world Lab.udp_peer)) /\
  delivered (final (ServeHTTP (H := Lab.collaborators) Lab.handler Lab.forwarded
                              (Lab.world Lab.udp_peer))) = [].
Proof. split; vm_compute; reflexivity. Qed.

Lemma ListenWS_wrapping_order_witness :
  exists l s' o,
    ListenWS (H := Lab.collaborators) Lab.bind_address 443 (Lab.settings true true)
             Lab.consumer (Lab.world Lab.tcp_peer) = Ok (Some l, None) s' /\
    listeners s' !! l = Some o /\
    listener o =
      TLSListener
        (ProxyListener
           (SystemListener (Lab.tcp_listener (TCPAddr.mk (ip4 0 0 0 0) 443 "")))
           policyFunc)
        {| ServerName := "example.org" |} /\
    (forall upstream, policyFunc upstream = (REQUIRE, None)) /\
    has_proxy (listener o) = true /\
    (has_tls (listener o) = true <->
       exists c t, ConfigFromStreamSettings (Lab.settings true true) = Some c /\
                   GetTLSConfig c = Some t) /\
    tls_outside_proxy (listener o) = true.
Proof.
  apply (ListenWS_wrapping_order (H := Lab.collaborators) Lab.bind_address 443
           (Lab.settings true true) Lab.consumer (Lab.world Lab.tcp_peer)
           (Lab.tcp_listener (TCPAddr.mk (ip4 0 0 0 0) 443 "")) (mkConfig "ws" true)).
  - reflexivity.
  - reflexivity.
Defined.

Lemma ListenWS_server_witness :
  exists l s' o,
    ListenWS (H := Lab.collaborators) Lab.bind_address 443 (Lab.settings true true)
             Lab.consumer (Lab.world Lab.tcp_peer) = Ok (Some l, None) s' /\
    listeners s' !! l = Some o /\
    Handler (server o) = Some {| path := "/ws"; ln := l |} /\
    ReadHeaderTimeout (server o) = 4 * Second /\
    MaxHeaderBytes (server o) = 2048 /\
    addConn o = Lab.consumer /\
    serving s' = serving (Lab.world Lab.tcp_peer) ++ [l].
Proof.
  apply (ListenWS_server (H := Lab.collaborators) Lab.bind_address 443
           (Lab.settings true true) Lab.consumer (Lab.world Lab.tcp_peer)
           (Lab.tcp_listener (TCPAddr.mk (ip4 0 0 0 0) 443 "")) (mkConfig "ws" true)).
  - reflexivity.
  - reflexivity.
Defined.

(** C4, as the spec has it, fails on a system listener that, like a TCP
    listener, refuses to be closed twice: the first [Close] on the handle
    succeeds, the second returns the error of the system listener, which
    has by then received two [Close] calls. *)
Lemma Listener_Close_twice_errs :
  exists s1 s2,
    Listener_Close 5%nat (Lab.world Lab.tcp_peer) = Ok None s1 /\
    Listener_Close 5%nat s1 = Ok (Some (Foreign "use of closed network connection")) s2 /\
    closes_seen 5%nat s2 = 2%nat.
Proof.
  eexists _, _. split; [|split].
  - vm_compute. reflexivity.
  - vm_compute. reflexivity.
  - vm_compute. reflexivity.
Qed.

Lemma Listener_Close_delegates_witness :
  listeners (Lab.world Lab.tcp_peer) !! 5%nat = Some Lab.hub /\
  exists s',
    Close_times 2 5%nat (Lab.world Lab.tcp_peer) =
      Ok [None; Some (Foreign "use of closed network connection")] s' /\
    closes_seen 5%nat s' = 2%nat.
Proof.
  split; [reflexivity|].
  apply (Listener_Close_delegates 2 5%nat (Lab.world Lab.tcp_peer) Lab.hub).
  reflexivity.
Defined.

(** ** Further properties, in the concrete setting *)

Lemma camouflage_write_failure_witness :
  exists sf sn,
    forbiddenHandler Lab.broken_world = Ok tt sf /\
    notFoundHandler Lab.broken_world = Ok tt sn /\
    logs sf = logs Lab.broken_world ++
      [Caused [VStr "failed to write forbidden response:"] SeverityInfo
         (Foreign "write: broken pipe")] /\
    logs sn = logs Lab.broken_world ++
      [Caused [VStr "failed to write not found response:"] SeverityInfo
         (Foreign "write: broken pipe")] /\
    rw_status (resp sf) = Some 403 /\
    rw_status (resp sn) = Some 404 /\
    rw_body (resp sf) = "" /\
    rw_body (resp sn) = "" /\
    same_world Lab.broken_world sf /\ same_world Lab.broken_world sn.
Proof.
  apply (camouflage_write_failure Lab.broken_world (Foreign "write: broken pipe")).
  - split; reflexivity.
  - reflexivity.
Defined.

Lemma camouflage_same_headers_witness :
  rw_sent (resp (final (forbiddenHandler (Lab.world Lab.tcp_peer)))) =
    rw_sent (resp (final (notFoundHandler (Lab.world Lab.tcp_peer)))) /\
  rw_sent (resp (final (forbiddenHandler (Lab.world Lab.tcp_peer)))) =
    <["Content-Type" := "text/html"]>
      (<["Server" := "nginx"]> (rw_header (resp (Lab.world Lab.tcp_peer)))) /\
  rw_header (resp (final (forbiddenHandler (Lab.world Lab.tcp_peer)))) =
    rw_sent (resp (final (forbiddenHandler (Lab.world Lab.tcp_peer)))) /\
  rw_header (resp (final (notFoundHandler (Lab.world Lab.tcp_peer)))) =
    rw_sent (resp (final (notFoundHandler (Lab.world Lab.tcp_peer)))).
Proof.
  apply (camouflage_same_headers (Lab.world Lab.tcp_peer)). split; reflexivity.
Defined.

Lemma ServeHTTP_refused_write_failure_witness :
  exists s', ServeHTTP (H := Lab.collaborators) Lab.handler Lab.bare Lab.broken_world
               = Ok tt s' /\
    logs s' = logs Lab.broken_world ++
      [Caused [VStr "failed to write forbidden response:"] SeverityInfo
         (Foreign "write: broken pipe");
       Caused [VStr "failed to convert to WebSocket connection"] SeverityInfo
         (Foreign "websocket: the client is not using the websocket protocol")] /\
    rw_status (resp s') = Some 403 /\
    rw_body (resp s') = "" /\
    delivered s' = delivered Lab.broken_world.
Proof.
  apply (ServeHTTP_refused_write_failure (H := Lab.collaborators) Lab.handler Lab.bare
           Lab.broken_world 400).
  - reflexivity.
  - vm_compute. reflexivity.
  - split; reflexivity.
  - reflexivity.
Defined.

Lemma ServeHTTP_success_is_silent_witness :
  resp (final (ServeHTTP (H := Lab.collaborators) Lab.handler Lab.direct
                         (Lab.world Lab.tcp_peer))) = resp (Lab.world Lab.tcp_peer) /\
  logs (final (ServeHTTP (H := Lab.collaborators) Lab.handler Lab.direct
                         (Lab.world Lab.tcp_peer))) = logs (Lab.world Lab.tcp_peer) /\
  listeners (final (ServeHTTP (H := Lab.collaborators) Lab.handler Lab.direct
                              (Lab.world Lab.tcp_peer)))
    = listeners (Lab.world Lab.tcp_peer) /\
  serving (final (ServeHTTP (H := Lab.collaborators) Lab.handler Lab.direct
                            (Lab.world Lab.tcp_peer))) = serving (Lab.world Lab.tcp_peer).
Proof.
  apply (ServeHTTP_success_is_silent (H := Lab.collaborators) Lab.handler Lab.direct
           (Lab.world Lab.tcp_peer) Lab.peer).
  - reflexivity.
  - vm_compute. reflexivity.
Defined.

Lemma Listener_Close_preserves_witness :
  exists e s' o',
    Listener_Close 5%nat (Lab.world Lab.tcp_peer) = Ok e s' /\
    listeners s' !! 5%nat = Some o' /\
    server o' = server Lab.hub /\ config o' = config Lab.hub /\
    addConn o' = addConn Lab.hub /\
    has_proxy (listener o') = has_proxy (listener Lab.hub) /\
    has_tls (listener o') = has_tls (listener Lab.hub) /\
    tls_outside_proxy (listener o') = tls_outside_proxy (listener Lab.hub) /\
    Listener_Addr 5%nat s' = Ok (NetListener_Addr (listener Lab.hub)) s' /\
    (forall l', l' ≠ 5%nat ->
       listeners s' !! l' = listeners (Lab.world Lab.tcp_peer) !! l') /\
    addrs s' = addrs (Lab.world Lab.tcp_peer) /\
    delivered s' = delivered (Lab.world Lab.tcp_peer) /\
    resp s' = resp (Lab.world Lab.tcp_peer).
Proof.
  apply (Listener_Close_preserves 5%nat (Lab.world Lab.tcp_peer) Lab.hub).
  reflexivity.
Defined.

Lemma ListenWS_foreign_settings_panic_witness :
  exists msg s',
    ListenWS (H := Lab.collaborators) Lab.bind_address 443 Lab.foreign_settings
             Lab.consumer (Lab.world Lab.tcp_peer) = Panic msg s' /\
    logs s' = logs (Lab.world Lab.tcp_peer) ++
      [Plain [VStr "listening TCP(for WS) on "; VAddress Lab.bind_address;
              VStr ":"; VPort 443] SeverityInfo] /\
    listeners s' = listeners (Lab.world Lab.tcp_peer) /\
    serving s' = serving (Lab.world Lab.tcp_peer).
Proof.
  apply (ListenWS_foreign_settings_panic (H := Lab.collaborators) Lab.bind_address 443
           Lab.foreign_settings Lab.consumer (Lab.world Lab.tcp_peer)
           (Lab.tcp_listener (TCPAddr.mk (ip4 0 0 0 0) 443 ""))).
  - reflexivity.
  - intros cfg. discriminate.
Defined.

Lemma ListenWS_effects_witness :
  exists l s',
    ListenWS (H := Lab.collaborators) Lab.bind_address 443 (Lab.settings true false)
             Lab.consumer (Lab.world Lab.tcp_peer) = Ok (Some l, None) s' /\
    logs s' = logs (Lab.world Lab.tcp_peer) ++
      Plain [VStr "listening TCP(for WS) on "; VAddress Lab.bind_address;
             VStr ":"; VPort 443] SeverityInfo ::
      (if AcceptProxyProtocol (mkConfig "ws" true)
       then [Plain [VStr "accepting PROXY protocol"] SeverityWarning] else []) /\
    resp s' = resp (Lab.world Lab.tcp_peer) /\
    addrs s' = addrs (Lab.world Lab.tcp_peer) /\
    delivered s' = delivered (Lab.world Lab.tcp_peer) /\
    upgrades s' = upgrades (Lab.world Lab.tcp_peer) /\
    (forall l' o, listeners (Lab.world Lab.tcp_peer) !! l' = Some o ->
                  listeners s' !! l' = Some o).
Proof.
  apply (ListenWS_effects (H := Lab.collaborators) Lab.bind_address 443
           (Lab.settings true false) Lab.consumer (Lab.world Lab.tcp_peer)
           (Lab.tcp_listener (TCPAddr.mk (ip4 0 0 0 0) 443 "")) (mkConfig "ws" true)).
  - reflexivity.
  - reflexivity.
Defined.

Lemma ListenWS_handles_distinct_witness :
  exists l1 s1 l2 s2 o1 o2,
    ListenWS (H := Lab.collaborators) Lab.bind_address 443 (Lab.settings true true)
             Lab.consumer (Lab.world Lab.tcp_peer) = Ok (Some l1, None) s1 /\
    ListenWS (H := Lab.collaborators) Lab.bind_address 8443 (Lab.settings false false)
             Lab.other_consumer s1 = Ok (Some l2, None) s2 /\
    l1 ≠ l2 /\
    listeners s1 !! l1 = Some o1 /\
    listeners s2 !! l1 = Some o1 /\
    listeners s2 !! l2 = Some o2 /\
    addConn o1 = Lab.consumer /\ addConn o2 = Lab.other_consumer /\
    underlying (listener o1) = Lab.tcp_listener (TCPAddr.mk (ip4 0 0 0 0) 443 "") /\
    underlying (listener o2) = Lab.tcp_listener (TCPAddr.mk (ip4 0 0 0 0) 8443 "").
Proof.
  apply (ListenWS_handles_distinct (H := Lab.collaborators)
           Lab.bind_address Lab.bind_address 443 8443
           (Lab.settings true true) (Lab.settings false false)
           Lab.consumer Lab.other_consumer (Lab.world Lab.tcp_peer)
           (Lab.tcp_listener (TCPAddr.mk (ip4 0 0 0 0) 443 ""))
           (Lab.tcp_listener (TCPAddr.mk (ip4 0 0 0 0) 8443 ""))
           (mkConfig "ws" true) (mkConfig "ws" false)).
  - reflexivity.
  - reflexivity.
  - reflexivity.
  - reflexivity.
Defined.

Lemma ListenWS_then_Addr_witness :
  exists l s',
    ListenWS (H := Lab.collaborators) Lab.bind_address 443 (Lab.settings true true)
             Lab.consumer (Lab.world Lab.tcp_peer) = Ok (Some l, None) s' /\
    Listener_Addr l s' = Ok (AddrTCP (TCPAddr.mk (ip4 0 0 0 0) 443 "")) s'.
Proof.
  apply (ListenWS_then_Addr (H := Lab.collaborators) Lab.bind_address 443
           (Lab.settings true true) Lab.consumer (Lab.world Lab.tcp_peer)
           (Lab.tcp_listener (TCPAddr.mk (ip4 0 0 0 0) 443 "")) (mkConfig "ws" true)).
  - reflexivity.
  - reflexivity.
Defined.

Lemma ListenWS_then_Close_witness :
  exists l s' s'',
    ListenWS (H := Lab.collaborators) Lab.bind_address 443 (Lab.settings true true)
             Lab.consumer (Lab.world Lab.tcp_peer) = Ok (Some l, None) s' /\
    Listener_Close l s' = Ok None s'' /\
    closes_seen l s'' = 1%nat.
Proof.
  apply (ListenWS_then_Close (H := Lab.collaborators) Lab.bind_address 443
           (Lab.settings true true) Lab.consumer (Lab.world Lab.tcp_peer)
           (Lab.tcp_listener (TCPAddr.mk (ip4 0 0 0 0) 443 "")) (mkConfig "ws" true)).
  - reflexivity.
  - reflexivity.
Defined.

Lemma ListenWS_then_ServeHTTP_witness :
  exists l s1 o h s2,
    ListenWS (H := Lab.collaborators) Lab.bind_address 443 (Lab.settings true true)
             Lab.other_consumer (Lab.world Lab.tcp_peer) = Ok (Some l, None) s1 /\
    listeners s1 !! l = Some o /\
    Handler (server o) = Some h /\
    ServeHTTP (H := Lab.collaborators) h Lab.direct s1 = Ok tt s2 /\
    delivered s2 = delivered (Lab.world Lab.tcp_peer) ++
      [(Lab.other_consumer, newConnection Lab.peer (RemoteAddr Lab.peer))].
Proof.
  apply (ListenWS_then_ServeHTTP (H := Lab.collaborators) Lab.bind_address 443
           (Lab.settings true true) Lab.other_consumer (Lab.world Lab.tcp_peer)
           (Lab.tcp_listener (TCPAddr.mk (ip4 0 0 0 0) 443 "")) (mkConfig "ws" true)
           Lab.direct Lab.peer).
  - reflexivity.
  - reflexivity.
  - reflexivity.
  - vm_compute. reflexivity.
  - vm_compute. exact I.
Defined.

